(* Verification model of the learning-platform quiz generator:
   src/services/ai_client.py (response extraction), src/models/quiz.py and
   src/models/requests.py (pydantic models), src/services/quiz_generator.py
   (orchestration), src/services/database.py (persistence gateway) and
   src/main.py (HTTP surface). *)

From Stdlib Require Import List String Ascii ZArith Bool Lia.
Import ListNotations.
Set Warnings "-register-all".
Open Scope string_scope.

(* ------------------------------------------------------------------ *)
(** * Python exceptions and the error monad *)

(** The exception classes the code raises or catches.  [ValidationError]
    is pydantic_core's ValidationError and [JSONDecodeError] is
    json.JSONDecodeError: both are subclasses of ValueError. *)
Inductive exn : Type :=
| ValueError (msg : string)
| ValidationError (msg : string)
| JSONDecodeError (msg : string)
| KeyError (msg : string)
| TypeError (msg : string)
| AttributeError (msg : string)
| InvalidId (msg : string)
| StoreError (msg : string)
| RuntimeError (msg : string).

(** [isinstance(e, ValueError)] *)
Definition is_value_error (e : exn) : bool :=
  match e with
  | ValueError _ | ValidationError _ | JSONDecodeError _ => true
  | _ => false
  end.

(** The argument the exception was raised with. *)
Definition exn_msg (e : exn) : string :=
  match e with
  | ValueError m | ValidationError m | JSONDecodeError m | KeyError m
  | TypeError m | AttributeError m | InvalidId m | StoreError m
  | RuntimeError m => m
  end.

(** [str(e)]: a KeyError prints its key quoted, the others their message. *)
Definition py_str_exn (e : exn) : string :=
  match e with
  | KeyError m => "'" ++ m ++ "'"
  | _ => exn_msg e
  end.

Inductive result (A : Type) : Type :=
| Ok (a : A)
| Err (e : exn).
Arguments Ok {A} a.
Arguments Err {A} e.

Definition bind {A B} (m : result A) (k : A -> result B) : result B :=
  match m with
  | Ok a => k a
  | Err e => Err e
  end.

Notation "'let*' x := m 'in' k" := (bind m (fun x => k))
  (at level 200, x name, m at level 100, k at level 200).

(* ------------------------------------------------------------------ *)
(** * Python string primitives on the response text *)

(** Index of the first occurrence of [c] in [s]. *)
Fixpoint first_index (c : ascii) (s : string) : option nat :=
  match s with
  | EmptyString => None
  | String a s' =>
      if Ascii.eqb a c then Some 0
      else option_map S (first_index c s')
  end.

(** Index of the last occurrence of [c] in [s]. *)
Fixpoint last_index (c : ascii) (s : string) : option nat :=
  match s with
  | EmptyString => None
  | String a s' =>
      match last_index c s' with
      | Some k => Some (S k)
      | None => if Ascii.eqb a c then Some 0 else None
      end
  end.

(** [s.find(c)]: the first index, or -1. *)
Definition py_find (c : ascii) (s : string) : Z :=
  match first_index c s with
  | Some n => Z.of_nat n
  | None => (-1)%Z
  end.

(** [s.rfind(c)]: the last index, or -1. *)
Definition py_rfind (c : ascii) (s : string) : Z :=
  match last_index c s with
  | Some n => Z.of_nat n
  | None => (-1)%Z
  end.

(** [s[a:b]] for [0 <= a]; an empty slice when [b <= a]. *)
Definition py_slice (s : string) (a b : Z) : string :=
  substring (Z.to_nat a) (Z.to_nat (b - a)) s.

(* ------------------------------------------------------------------ *)
(** * AIClientService.generate_quiz_questions, step 1 (lines 99-105) *)

(** [start_idx = response_text.find('{')],
    [end_idx = response_text.rfind('}') + 1], the "No JSON found" guard and
    [json_str = response_text[start_idx:end_idx]].  [response_text] is the
    model output after [.strip()]. *)
Definition locate_json (response_text : string) : result string :=
  let start_idx := py_find "{"%char response_text in
  let end_idx := (py_rfind "}"%char response_text + 1)%Z in
  if (start_idx =? -1)%Z || (end_idx =? 0)%Z
  then Err (ValueError "No JSON found in response")
  else Ok (py_slice response_text start_idx end_idx).

(* ------------------------------------------------------------------ *)
(** * Python values produced by json.loads *)

(** JSON numbers are modelled as integers; an object keeps its key/value
    pairs in document order (a repeated key is resolved as json.loads does:
    the last binding wins). *)
Inductive json : Type :=
| JNull
| JBool (b : bool)
| JInt (z : Z)
| JStr (s : string)
| JArr (l : list json)
| JObj (kvs : list (string * json)).

(** The value bound to [k] in a decoded object: the last binding. *)
Fixpoint assoc_last (k : string) (kvs : list (string * json)) : option json :=
  match kvs with
  | [] => None
  | (k', v) :: r =>
      match assoc_last k r with
      | Some w => Some w
      | None => if String.eqb k k' then Some v else None
      end
  end.

(** [list(d)] for a dict: its distinct keys in first-insertion order. *)
Fixpoint dict_keys_acc (acc : list string) (kvs : list (string * json))
  : list string :=
  match kvs with
  | [] => rev acc
  | (k, _) :: r =>
      if existsb (String.eqb k) acc then dict_keys_acc acc r
      else dict_keys_acc (k :: acc) r
  end.

Definition dict_keys (kvs : list (string * json)) : list string :=
  dict_keys_acc [] kvs.

Definition str_contains (needle hay : string) : bool :=
  match index 0 needle hay with
  | Some _ => true
  | None => false
  end.

(** [key in v] *)
Definition py_contains (key : string) (v : json) : result bool :=
  match v with
  | JObj kvs => Ok (existsb (fun kv => String.eqb (fst kv) key) kvs)
  | JArr l =>
      Ok (existsb (fun x => match x with JStr s => String.eqb s key
                                        | _ => false end) l)
  | JStr s => Ok (str_contains key s)
  | JNull => Err (TypeError "argument of type 'NoneType' is not iterable")
  | JBool _ => Err (TypeError "argument of type 'bool' is not iterable")
  | JInt _ => Err (TypeError "argument of type 'int' is not iterable")
  end.

(** [v[key]] with a string key. *)
Definition py_getitem (v : json) (key : string) : result json :=
  match v with
  | JObj kvs =>
      match assoc_last key kvs with
      | Some x => Ok x
      | None => Err (KeyError key)
      end
  | JArr _ => Err (TypeError "list indices must be integers or slices, not str")
  | JStr _ => Err (TypeError "string indices must be integers")
  | JNull => Err (TypeError "'NoneType' object is not subscriptable")
  | JBool _ => Err (TypeError "'bool' object is not subscriptable")
  | JInt _ => Err (TypeError "'int' object is not subscriptable")
  end.

(** [v.get(key)] *)
Definition py_dict_get (v : json) (key : string) : result json :=
  match v with
  | JObj kvs =>
      match assoc_last key kvs with
      | Some x => Ok x
      | None => Ok JNull
      end
  | _ => Err (AttributeError "object has no attribute 'get'")
  end.

(** [for x in v]: the items a for loop visits. *)
Definition py_iter (v : json) : result (list json) :=
  match v with
  | JArr l => Ok l
  | JObj kvs => Ok (map JStr (dict_keys kvs))
  | JStr s => Ok (map (fun c => JStr (String c EmptyString)) (list_ascii_of_string s))
  | JNull => Err (TypeError "'NoneType' object is not iterable")
  | JBool _ => Err (TypeError "'bool' object is not iterable")
  | JInt _ => Err (TypeError "'int' object is not iterable")
  end.

(* ------------------------------------------------------------------ *)
(** * src/models/quiz.py *)

Inductive QuestionType : Type :=
| MULTIPLE_CHOICE
| BOOLEAN
| OPEN.

Inductive DifficultyLevel : Type :=
| EASY
| MEDIUM
| HARD.

Definition question_type_value (t : QuestionType) : string :=
  match t with
  | MULTIPLE_CHOICE => "multiple_choice"
  | BOOLEAN => "boolean"
  | OPEN => "open"
  end.

Definition difficulty_value (d : DifficultyLevel) : string :=
  match d with
  | EASY => "easy"
  | MEDIUM => "medium"
  | HARD => "hard"
  end.

Definition enum_error (cls : string) (v : json) : exn :=
  match v with
  | JStr s => ValueError ("'" ++ s ++ "' is not a valid " ++ cls)
  | _ => ValueError ("value is not a valid " ++ cls)
  end.

(** [QuestionType(v)]: lookup by value, ValueError otherwise. *)
Definition QuestionType_call (v : json) : result QuestionType :=
  match v with
  | JStr s =>
      if String.eqb s "multiple_choice" then Ok MULTIPLE_CHOICE
      else if String.eqb s "boolean" then Ok BOOLEAN
      else if String.eqb s "open" then Ok OPEN
      else Err (enum_error "QuestionType" v)
  | _ => Err (enum_error "QuestionType" v)
  end.

(** [DifficultyLevel(v)] *)
Definition DifficultyLevel_call (v : json) : result DifficultyLevel :=
  match v with
  | JStr s =>
      if String.eqb s "easy" then Ok EASY
      else if String.eqb s "medium" then Ok MEDIUM
      else if String.eqb s "hard" then Ok HARD
      else Err (enum_error "DifficultyLevel" v)
  | _ => Err (enum_error "DifficultyLevel" v)
  end.

(** A value of the field type [Union[str, bool]]. *)
Inductive answer : Type :=
| AStr (s : string)
| ABool (b : bool).

(** [str(b)] for a bool. *)
Definition py_str_bool (b : bool) : string := if b then "True" else "False".

Definition ascii_lower (c : ascii) : ascii :=
  let n := nat_of_ascii c in
  if (65 <=? n)%nat && (n <=? 90)%nat then ascii_of_nat (n + 32) else c.

(** [s.lower()] on ASCII text. *)
Fixpoint py_lower (s : string) : string :=
  match s with
  | EmptyString => EmptyString
  | String c s' => String (ascii_lower c) (py_lower s')
  end.

(** Question.convert_answer_to_string (quiz.py lines 17-22), an "after"
    field validator: it sees the value produced by the Union validation. *)
Definition convert_answer_to_string (v : answer) : answer :=
  match v with
  | ABool b => AStr (py_lower (py_str_bool b))
  | AStr s => AStr s
  end.

(** pydantic's smart-mode validation of [Union[str, bool]]: an exact str or
    bool is kept; otherwise the members are tried in lax mode in order: str
    accepts no number, bool accepts the integers 0 and 1. *)
Definition validate_str_or_bool (v : json) : option answer :=
  match v with
  | JStr s => Some (AStr s)
  | JBool b => Some (ABool b)
  | JInt z =>
      if (z =? 0)%Z then Some (ABool false)
      else if (z =? 1)%Z then Some (ABool true)
      else None
  | _ => None
  end.

(** [str] field with [min_length]. *)
Definition validate_str (min_len : nat) (v : json) : option string :=
  match v with
  | JStr s => if (min_len <=? String.length s)%nat then Some s else None
  | _ => None
  end.

Fixpoint all_str (l : list json) : option (list string) :=
  match l with
  | [] => Some []
  | JStr s :: r => option_map (cons s) (all_str r)
  | _ :: _ => None
  end.

(** [List[str]] field. *)
Definition validate_list_str (v : json) : option (list string) :=
  match v with
  | JArr l => all_str l
  | _ => None
  end.

(** [Optional[List[str]]] field. *)
Definition validate_opt_list_str (v : json) : option (option (list string)) :=
  match v with
  | JNull => Some None
  | _ => option_map Some (validate_list_str v)
  end.

Record Question : Type := mkQuestion {
  question : string;
  type : QuestionType;
  correct_answer : answer;
  options : option (list string);
  explanation : string;
  difficulty : DifficultyLevel;
  topic : string;
  concepts_tested : list string
}.

(** [Question(...)]: pydantic validates every field and raises a single
    ValidationError when any of them fails. *)
Definition Question_new (question : json) (type : QuestionType)
    (correct_answer options explanation : json) (difficulty : DifficultyLevel)
    (topic concepts_tested : json) : result Question :=
  match validate_str 10 question, validate_str_or_bool correct_answer,
        validate_opt_list_str options, validate_str 20 explanation,
        validate_str 0 topic, validate_list_str concepts_tested with
  | Some q, Some a, Some o, Some e, Some tp, Some c =>
      Ok (mkQuestion q type (convert_answer_to_string a) o e
            difficulty tp c)
  | _, _, _, _, _, _ => Err (ValidationError "validation error for Question")
  end.

(** [Quiz]: pydantic model with [questions] constrained by
    [min_length=1, max_length=20]; [created_at] comes from its default
    factory, here the argument [now]. *)
Record Quiz : Type := mkQuiz {
  book_id : string;
  questions : list Question;
  created_at : Z;
  ai_model : string;
  generation_prompt : option string;
  metadata : option (list (string * json))
}.

Definition Quiz_new (book_id : string) (questions : list Question)
    (now : Z) (ai_model : string) (generation_prompt : option string)
    (metadata : option (list (string * json))) : result Quiz :=
  if (1 <=? List.length questions)%nat && (List.length questions <=? 20)%nat
  then Ok (mkQuiz book_id questions now ai_model generation_prompt metadata)
  else Err (ValidationError "questions: List should have between 1 and 20 items").

(* ------------------------------------------------------------------ *)
(** * src/models/requests.py *)

Record QuizOptions : Type := mkQuizOptions {
  num_questions : Z;
  difficulty_distribution : option (list (DifficultyLevel * Z));
  question_types : list QuestionType;
  language : string
}.

(** [QuizOptions()]; the distribution {easy: 0.3, medium: 0.5, hard: 0.2}
    is kept in percent. *)
Definition default_options : QuizOptions :=
  mkQuizOptions 10 (Some [(EASY, 30%Z); (MEDIUM, 50%Z); (HARD, 20%Z)])
    [MULTIPLE_CHOICE; BOOLEAN] "it".

(** [int] field with [ge]/[le] bounds (lax mode also accepts a bool). *)
Definition validate_int_range (lo hi : Z) (v : json) : option Z :=
  let check z := if (lo <=? z)%Z && (z <=? hi)%Z then Some z else None in
  match v with
  | JInt z => check z
  | JBool b => check (if b then 1%Z else 0%Z)
  | _ => None
  end.

Fixpoint all_some {A B} (f : A -> option B) (l : list A) : option (list B) :=
  match l with
  | [] => Some []
  | x :: r =>
      match f x, all_some f r with
      | Some y, Some ys => Some (y :: ys)
      | _, _ => None
      end
  end.

Definition result_to_option {A} (r : result A) : option A :=
  match r with
  | Ok a => Some a
  | Err _ => None
  end.

(** [Optional[Dict[DifficultyLevel, float]]], integers read as percents. *)
Definition validate_distribution (v : json)
  : option (option (list (DifficultyLevel * Z))) :=
  match v with
  | JNull => Some None
  | JObj kvs =>
      option_map Some
        (all_some (fun k =>
           match result_to_option (DifficultyLevel_call (JStr k)),
                 assoc_last k kvs with
           | Some d, Some (JInt z) => Some (d, (100 * z)%Z)
           | _, _ => None
           end) (dict_keys kvs))
  | _ => None
  end.

(** [List[QuestionType]] *)
Definition validate_question_types (v : json) : option (list QuestionType) :=
  match v with
  | JArr l => all_some (fun x => result_to_option (QuestionType_call x)) l
  | _ => None
  end.

(** A field with a default: absent takes the default, present is validated. *)
Definition with_default {A} (kvs : list (string * json)) (k : string)
    (dflt : A) (validate : json -> option A) : option A :=
  match assoc_last k kvs with
  | None => Some dflt
  | Some v => validate v
  end.

(** A required field. *)
Definition required {A} (kvs : list (string * json)) (k : string)
    (validate : json -> option A) : option A :=
  match assoc_last k kvs with
  | None => None
  | Some v => validate v
  end.

(** [QuizOptions] validated from a JSON object. *)
Definition parse_options (v : json) : option QuizOptions :=
  match v with
  | JObj kvs =>
      match with_default kvs "num_questions" 10%Z (validate_int_range 1 20),
            with_default kvs "difficulty_distribution"
              (difficulty_distribution default_options) validate_distribution,
            with_default kvs "question_types" [MULTIPLE_CHOICE; BOOLEAN]
              validate_question_types,
            with_default kvs "language" "it" (validate_str 0) with
      | Some n, Some dd, Some qt, Some lang => Some (mkQuizOptions n dd qt lang)
      | _, _, _, _ => None
      end
  | _ => None
  end.

Module Request.
(** [QuizGenerationRequest]: [content: str = Field(..., min_length=100)]
    is a required field; [options] is [Optional["QuizOptions"]]. *)
Record QuizGenerationRequest : Type := mkRequest {
  content : string;
  book_id : string;
  metadata : option (list (string * json));
  options : option QuizOptions
}.
End Request.

(** Validation of the POST body into a [QuizGenerationRequest]; FastAPI
    answers 422 when it fails. *)
Definition parse_request (body : json) : result Request.QuizGenerationRequest :=
  match body with
  | JObj kvs =>
      match required kvs "content" (validate_str 100),
            required kvs "book_id" (validate_str 0),
            with_default kvs "metadata" (Some [])
              (fun v => match v with
                        | JNull => Some None
                        | JObj m => Some (Some m)
                        | _ => None
                        end),
            with_default kvs "options" (Some default_options)
              (fun v => match v with
                        | JNull => Some None
                        | _ => option_map Some (parse_options v)
                        end) with
      | Some c, Some b, Some m, Some o => Ok (Request.mkRequest c b m o)
      | _, _, _, _ => Err (ValidationError "validation error for QuizGenerationRequest")
      end
  | _ => Err (ValidationError "Input should be a valid dictionary")
  end.

Record QuizGenerationResponse : Type := mkQuizGenerationResponse {
  quiz_id : string;
  questions_count : nat;
  status : string;
  ai_model_used : string
}.

(* ------------------------------------------------------------------ *)
(** * The services and the HTTP surface *)

Record http_response : Type := mkResp {
  status_code : Z;
  body : json
}.

(** [HTTPException(status_code=code, detail=str(e))] *)
Definition http_error (code : Z) (e : exn) : http_response :=
  mkResp code (JObj [("detail", JStr (py_str_exn e))]).

(** Python truthiness: [if not v]. *)
Definition py_truthy (v : json) : bool :=
  match v with
  | JNull => false
  | JBool b => b
  | JInt z => negb (z =? 0)%Z
  | JStr s => negb (String.eqb s "")
  | JArr l => match l with [] => false | _ => true end
  | JObj kvs => match kvs with [] => false | _ => true end
  end.

(** [len(v)] *)
Definition py_len (v : json) : result nat :=
  match v with
  | JStr s => Ok (String.length s)
  | JArr l => Ok (List.length l)
  | JObj kvs => Ok (List.length (dict_keys kvs))
  | _ => Err (TypeError "object has no len()")
  end.

Section Service.

(** [settings.default_ai_model] and [settings.service_name]. *)
Variable default_ai_model service_name : string.

(** [json.loads]: the decoded value, or the JSONDecodeError diagnostic. *)
Variable json_loads : string -> json + string.

(** [client.messages.create] on the prompt rendered from the content and
    the options, followed by [response.content[0].text.strip()]. *)
Variable complete : json -> QuizOptions -> result string.

(** [requests.get(url, timeout=30)], [raise_for_status()] and
    [response.json()]; its failures are RequestExceptions. *)
Variable get_document : string -> result json.

(** [datetime.now(timezone.utc)] when the Quiz is built. *)
Variable now : Z.

(** [quizzes_collection.insert_one(quiz.model_dump())] and
    [str(result.inserted_id)]. *)
Variable insert_one : Quiz -> result string.

(** [quizzes_collection.find_one({"_id": oid})]: the stored fields
    other than [_id], or None. *)
Variable find_one : string -> result (option (list (string * json))).

(** [quizzes_collection.delete_one({"_id": oid}).deleted_count] *)
Variable delete_one : string -> result Z.

(** [db_service.client.admin.command('ping')] *)
Variable ping : result unit.

(** Whether FastAPI's [response_model=QuizDocument] serialisation accepts a
    returned document. *)
Variable valid_quiz_document : list (string * json) -> bool.

(** ai_client.py lines 112-124: the body of the loop, one element. *)
Definition build_question (q_data : json) : result Question :=
  let* question := py_getitem q_data "question" in
  let* tv := py_getitem q_data "type" in
  let* type := QuestionType_call tv in
  let* correct_answer := py_getitem q_data "correct_answer" in
  let* options := py_dict_get q_data "options" in
  let* explanation := py_getitem q_data "explanation" in
  let* dv := py_getitem q_data "difficulty" in
  let* difficulty := DifficultyLevel_call dv in
  let* topic := py_getitem q_data "topic" in
  let* concepts_tested := py_getitem q_data "concepts_tested" in
  Question_new question type correct_answer options explanation difficulty
    topic concepts_tested.

(** ai_client.py lines 111-124: [questions.append] for each element, the
    first exception leaving the loop. *)
Fixpoint build_questions (items : list json) : result (list Question) :=
  match items with
  | [] => Ok []
  | q_data :: rest =>
      let* question := build_question q_data in
      let* questions := build_questions rest in
      Ok (question :: questions)
  end.

(** ai_client.py lines 99-112, up to the loop: locate the candidate, decode
    it (a JSONDecodeError is re-raised as ValueError), require the
    "questions" key, and iterate over its value. *)
Definition questions_array (response_text : string) : result (list json) :=
  let* json_str := locate_json response_text in
  match json_loads json_str with
  | inr m => Err (ValueError ("Invalid JSON response from AI: " ++ m))
  | inl response_data =>
      let* has_questions := py_contains "questions" response_data in
      if negb has_questions
      then Err (ValueError "No 'questions' key in response")
      else
        let* questions_value := py_getitem response_data "questions" in
        py_iter questions_value
  end.

(** AIClientService.generate_quiz_questions.  A None [options] fails on
    [options.difficulty_distribution] before the model is called. *)
Definition generate_quiz_questions (content : json)
    (options : option QuizOptions) : result (list Question) :=
  match options with
  | None => Err (AttributeError "'NoneType' object has no attribute 'difficulty_distribution'")
  | Some opts =>
      let* response_text := complete content opts in
      let* items := questions_array response_text in
      build_questions items
  end.

(** QuizGeneratorService._fetch_document_content *)
Definition fetch_document_content (document_id : string) : result json :=
  match get_document document_id with
  | Err e => Err (ValueError ("Failed to retrieve document content: " ++ py_str_exn e))
  | Ok document_data =>
      match py_dict_get document_data "content" with
      | Err e => Err (ValueError ("Error processing document content: " ++ py_str_exn e))
      | Ok content =>
          if py_truthy content then Ok content
          else Err (ValueError ("Error processing document content: Document "
                                ++ document_id ++ " has no content"))
      end
  end.

(** QuizGeneratorService.generate_quiz, lines 47-54: resolve the content. *)
Definition resolve_content (request : Request.QuizGenerationRequest) : result json :=
  let content := JStr (Request.content request) in
  let* content :=
    if py_truthy content then Ok content
    else fetch_document_content (Request.book_id request) in
  let* n := py_len content in
  if (n <? 100)%nat
  then Err (ValueError "Content must be at least 100 characters long")
  else Ok content.

(** QuizGeneratorService.generate_quiz (the elapsed time is not modelled). *)
Definition generate_quiz (request : Request.QuizGenerationRequest)
  : result QuizGenerationResponse :=
  let* content := resolve_content request in
  let* questions := generate_quiz_questions content (Request.options request) in
  let* quiz := Quiz_new (Request.book_id request) questions now default_ai_model
                 (Some "Quiz generated from book content")
                 (Request.metadata request) in
  let* quiz_id := insert_one quiz in
  Ok (mkQuizGenerationResponse quiz_id (List.length questions) "success"
        default_ai_model).

Definition response_json (r : QuizGenerationResponse) : json :=
  JObj [("quiz_id", JStr (quiz_id r));
        ("questions_count", JInt (Z.of_nat (questions_count r)));
        ("status", JStr (status r));
        ("ai_model_used", JStr (ai_model_used r))].

(** main.py: POST /generate-quiz. *)
Definition http_generate_quiz (body : json) : http_response :=
  match parse_request body with
  | Err e => http_error 422 e
  | Ok request =>
      match generate_quiz request with
      | Ok r => mkResp 200 (response_json r)
      | Err e => if is_value_error e then http_error 400 e else http_error 500 e
      end
  end.

(** A hexadecimal digit, either case ([_PyLong_DigitValue] below 16). *)
Definition is_hex_char (c : ascii) : bool :=
  let n := nat_of_ascii c in
  ((48 <=? n) && (n <=? 57) || (65 <=? n) && (n <=? 70)
   || (97 <=? n) && (n <=? 102))%nat.

(** [Py_ISSPACE]: space, tab, newline, vertical tab, form feed, carriage
    return. *)
Definition is_py_space (c : ascii) : bool :=
  let n := nat_of_ascii c in
  ((n =? 32) || (9 <=? n) && (n <=? 13))%nat.

(** [bytes.fromhex(s)] followed by [binascii.hexlify]: whitespace is
    skipped before each byte, every byte is two hexadecimal digits, and the
    bytes are given back as their lowercase hex digits; None is the
    ValueError of [fromhex]. *)
Fixpoint fromhex_hexlify (l : list ascii) : option (list ascii) :=
  match l with
  | [] => Some []
  | c :: r =>
      if is_py_space c then fromhex_hexlify r
      else
        match r with
        | [] => None
        | d :: r' =>
            if is_hex_char c && is_hex_char d
            then option_map (fun h => ascii_lower c :: ascii_lower d :: h)
                   (fromhex_hexlify r')
            else None
        end
  end.

(** [ObjectId(s)] for a str: a 24-character string is decoded with
    [bytes.fromhex], anything else is an InvalidId; [str(oid)] is the
    lowercase hex form of the decoded bytes. *)
Definition object_id (s : string) : result string :=
  let invalid :=
    Err (InvalidId ("'" ++ s ++ "' is not a valid ObjectId, it must be a 12-byte input or a 24-character hex string")) in
  if (String.length s =? 24)%nat
  then match fromhex_hexlify (list_ascii_of_string s) with
       | Some h => Ok (string_of_list_ascii h)
       | None => invalid
       end
  else invalid.

(** DatabaseService.get_quiz: every exception of the [try] body gives
    None. *)
Definition db_get_quiz (quiz_id : string) : option (list (string * json)) :=
  let attempt :=
    let* oid := object_id quiz_id in
    let* quiz := find_one oid in
    Ok (match quiz with
        | Some fields => Some (("_id", JStr oid) :: fields)
        | None => None
        end) in
  match attempt with
  | Ok r => r
  | Err _ => None
  end.

(** DatabaseService.delete_quiz: every exception of the [try] body gives
    False. *)
Definition db_delete_quiz (quiz_id : string) : bool :=
  let attempt :=
    let* oid := object_id quiz_id in
    let* deleted_count := delete_one oid in
    Ok (0 <? deleted_count)%Z in
  match attempt with
  | Ok b => b
  | Err _ => false
  end.

(** QuizGeneratorService.get_quiz *)
Definition service_get_quiz (quiz_id : string) : result (list (string * json)) :=
  match db_get_quiz quiz_id with
  | Some quiz_data =>
      if py_truthy (JObj quiz_data) then Ok quiz_data
      else Err (ValueError ("Quiz with ID " ++ quiz_id ++ " not found"))
  | None => Err (ValueError ("Quiz with ID " ++ quiz_id ++ " not found"))
  end.

(** main.py: GET /quizzes/{quiz_id}. *)
Definition http_get_quiz (quiz_id : string) : http_response :=
  match service_get_quiz quiz_id with
  | Ok quiz_data =>
      if valid_quiz_document quiz_data then mkResp 200 (JObj quiz_data)
      else http_error 500 (RuntimeError "response validation failed")
  | Err e => if is_value_error e then http_error 404 e else http_error 500 e
  end.

(** main.py: DELETE /quizzes/{quiz_id} (QuizGeneratorService.delete_quiz
    only logs and forwards the gateway's answer). *)
Definition http_delete_quiz (quiz_id : string) : http_response :=
  if db_delete_quiz quiz_id
  then mkResp 200 (JObj [("message", JStr ("Quiz " ++ quiz_id ++ " deleted successfully"))])
  else mkResp 404 (JObj [("detail", JStr ("Quiz with ID " ++ quiz_id ++ " not found"))]).

(** main.py: GET /health. *)
Definition health_check : http_response :=
  match ping with
  | Ok _ =>
      mkResp 200 (JObj [("status", JStr "healthy");
                        ("service", JStr service_name);
                        ("version", JStr "1.0.0");
                        ("database", JStr "connected")])
  | Err e =>
      mkResp 200 (JObj [("status", JStr "unhealthy");
                        ("service", JStr service_name);
                        ("version", JStr "1.0.0");
                        ("database", JStr "disconnected");
                        ("error", JStr (py_str_exn e))])
  end.

End Service.

(* ------------------------------------------------------------------ *)
(** * Listing quizzes: DatabaseService.get_quizzes and GET /quizzes *)

(** A document of the collection: its ObjectId (lowercase hex) and its
    other fields. *)
Definition stored_doc : Type := (string * list (string * json))%type.

(** The filter [{"book_id": b}]: a document matches when its field equals
    [b] or is an array containing [b]. *)
Definition book_id_matches (b : string) (fields : list (string * json)) : bool :=
  match assoc_last "book_id" fields with
  | Some (JStr s) => String.eqb s b
  | Some (JArr l) =>
      existsb (fun x => match x with JStr s => String.eqb s b | _ => false end) l
  | _ => false
  end.

(** [cursor.skip(offset)]: a negative skip is refused by the driver. *)
Definition cursor_skip {A} (offset : Z) (l : list A) : result (list A) :=
  if (offset <? 0)%Z then Err (ValueError "skip must be >= 0")
  else Ok (skipn (Z.to_nat offset) l).

(** [cursor.limit(limit)]: 0 means no limit, a negative limit returns at
    most [|limit|] documents. *)
Definition cursor_limit {A} (limit : Z) (l : list A) : list A :=
  if (limit =? 0)%Z then l else firstn (Z.to_nat (Z.abs limit)) l.

(** [quiz["_id"] = str(quiz["_id"])] on a fetched document. *)
Definition with_string_id (d : stored_doc) : list (string * json) :=
  ("_id", JStr (fst d)) :: snd d.

Section Listing.

(** The documents [quizzes_collection.find(...)] iterates, in cursor order,
    or the driver's failure. *)
Variable find_all : result (list stored_doc).

(** DatabaseService.get_quizzes; [book_id] is [Optional[str]] and filters
    only when truthy. *)
Definition db_get_quizzes (book_id : option string) (limit offset : Z)
  : result (list (list (string * json))) :=
  let* docs := find_all in
  let matching :=
    match book_id with
    | Some b => if String.eqb b "" then docs
                else filter (fun d => book_id_matches b (snd d)) docs
    | None => docs
    end in
  let* skipped := cursor_skip offset matching in
  Ok (map with_string_id (cursor_limit limit skipped)).

(** QuizGeneratorService.list_quizzes *)
Definition service_list_quizzes (book_id : option string) (limit offset : Z)
  : result json :=
  let* quizzes := db_get_quizzes book_id limit offset in
  Ok (JObj [("quizzes", JArr (map JObj quizzes));
            ("count", JInt (Z.of_nat (List.length quizzes)));
            ("limit", JInt limit);
            ("offset", JInt offset)]).

(** main.py: GET /quizzes, with the [Query(ge=1, le=100)] bound on
    [limit] and [Query(ge=0)] on [offset] checked by FastAPI first. *)
Definition http_list_quizzes (book_id : option string) (limit offset : Z)
  : http_response :=
  if negb ((1 <=? limit)%Z && (limit <=? 100)%Z && (0 <=? offset)%Z)
  then mkResp 422 (JObj [("detail", JStr "query parameter validation failed")])
  else
    match service_list_quizzes book_id limit offset with
    | Ok r => mkResp 200 r
    | Err e => http_error 500 e
    end.

End Listing.

(** A collection held in memory, answering find_one and delete_one by
    ObjectId as the driver does; used to run the gateway on a store. *)
Definition collection_find_one (coll : list stored_doc) (oid : string)
  : result (option (list (string * json))) :=
  match find (fun d => String.eqb (fst d) oid) coll with
  | Some d => Ok (Some (snd d))
  | None => Ok None
  end.

Definition collection_delete_one (coll : list stored_doc) (oid : string) : result Z :=
  if existsb (fun d => String.eqb (fst d) oid) coll then Ok 1%Z else Ok 0%Z.

(** A 24-digit lowercase hexadecimal string, the form [str(ObjectId)]
    has. *)
Definition is_lower_hex_char (c : ascii) : bool :=
  let n := nat_of_ascii c in
  ((48 <=? n) && (n <=? 57) || (97 <=? n) && (n <=? 102))%nat.

Definition is_object_id_string (s : string) : bool :=
  (String.length s =? 24)%nat && forallb is_lower_hex_char (list_ascii_of_string s).

(* ------------------------------------------------------------------ *)
(** * Positions of a character, as the specification words them *)

Definition contains_char (c : ascii) (s : string) : Prop :=
  exists k, String.get k s = Some c.

Definition is_first_occurrence (c : ascii) (s : string) (i : nat) : Prop :=
  String.get i s = Some c /\ forall k, (k < i)%nat -> String.get k s <> Some c.

Definition is_last_occurrence (c : ascii) (s : string) (j : nat) : Prop :=
  String.get j s = Some c /\ forall k, (j < k)%nat -> String.get k s <> Some c.

(** The exception classes an extraction failure can have. *)
Definition extraction_error_class (e : exn) : Prop :=
  is_value_error e = true
  \/ exists m, e = KeyError m \/ e = TypeError m \/ e = AttributeError m.

(** A body field of an HTTP response. *)
Definition response_field (r : http_response) (k : string) : result json :=
  py_getitem (body r) k.

(** ** Sample inputs *)

Definition sample_question_json : json :=
  JObj [("question", JStr "What is the capital of Italy?");
        ("type", JStr "multiple_choice");
        ("correct_answer", JStr "Rome");
        ("options", JArr [JStr "Rome"; JStr "Milan"; JStr "Turin"; JStr "Naples"]);
        ("explanation", JStr "Rome has been the capital of Italy since 1871.");
        ("difficulty", JStr "easy");
        ("topic", JStr "Geography");
        ("concepts_tested", JArr [JStr "capitals"])].

Definition sample_question : Question :=
  mkQuestion "What is the capital of Italy?" MULTIPLE_CHOICE (AStr "Rome")
    (Some ["Rome"; "Milan"; "Turin"; "Naples"])
    "Rome has been the capital of Italy since 1871." EASY "Geography"
    ["capitals"].

(** An element whose question text is shorter than 10 characters. *)
Definition sample_short_question_json : json :=
  JObj [("question", JStr "Short?");
        ("type", JStr "multiple_choice");
        ("correct_answer", JStr "Answer");
        ("explanation", JStr "Short");
        ("difficulty", JStr "easy");
        ("topic", JStr "Test");
        ("concepts_tested", JArr [JStr "test"])].

Definition sample_content : string :=
  "Rome is the capital of Italy and its largest city. It is located in the central-western portion of the Italian Peninsula.".

Definition sample_request_body : json :=
  JObj [("content", JStr sample_content); ("book_id", JStr "book-123")].

(** A json.loads that decodes every candidate to one fixed object. *)
Definition loads_constant (v : json) : string -> json + string :=
  fun _ => inl v.

(** A model that always answers with the same text. *)
Definition complete_constant (t : string) : json -> QuizOptions -> result string :=
  fun _ _ => Ok t.

(* ================================================================== *)
(** * Proofs *)

(** ** Locating the candidate *)

Lemma first_index_none_iff (c : ascii) (s : string) :
  first_index c s = None <-> forall k, String.get k s <> Some c.
Proof.
  induction s as [|a s IH]; simpl.
  - split; [intros _ k; destruct k; discriminate | reflexivity].
  - destruct (Ascii.eqb_spec a c) as [->|Hne].
    + split; [discriminate | intros H; exfalso; apply (H 0%nat); reflexivity].
    + split.
      * intros H [|k]; simpl; [congruence|].
        destruct (first_index c s); [discriminate|].
        apply (proj1 IH eq_refl).
      * intros H. destruct (first_index c s) eqn:E; [|reflexivity].
        exfalso.
        assert (Hs : forall k, String.get k s <> Some c) by (intros k; apply (H (S k))).
        apply IH in Hs. discriminate.
Qed.

Lemma first_index_some (c : ascii) (s : string) (i : nat) :
  first_index c s = Some i -> is_first_occurrence c s i.
Proof.
  revert i; induction s as [|a s IH]; intros i H; simpl in H; [discriminate|].
  destruct (Ascii.eqb_spec a c) as [->|Hne].
  - injection H as <-. split; [reflexivity | intros k Hk; lia].
  - destruct (first_index c s) as [i'|] eqn:E; simpl in H; [|discriminate].
    injection H as <-. destruct (IH i' eq_refl) as [Hget Hbefore].
    split; [exact Hget|].
    intros [|k] Hk; simpl; [congruence|]. apply Hbefore. lia.
Qed.

Lemma last_index_none_iff (c : ascii) (s : string) :
  last_index c s = None <-> forall k, String.get k s <> Some c.
Proof.
  induction s as [|a s IH]; simpl.
  - split; [intros _ k; destruct k; discriminate | reflexivity].
  - destruct (last_index c s) as [k0|] eqn:E.
    + split; [discriminate|]. intros H. exfalso.
      assert (Hs : forall k, String.get k s <> Some c) by (intros k; apply (H (S k))).
      apply IH in Hs. discriminate.
    + destruct (Ascii.eqb_spec a c) as [->|Hne].
      * split; [discriminate | intros H; exfalso; apply (H 0%nat); reflexivity].
      * split; [|reflexivity]. intros _ [|k]; simpl; [congruence|].
        apply (proj1 IH eq_refl).
Qed.

Lemma last_index_some (c : ascii) (s : string) (j : nat) :
  last_index c s = Some j -> is_last_occurrence c s j.
Proof.
  revert j; induction s as [|a s IH]; intros j H; simpl in H; [discriminate|].
  destruct (last_index c s) as [k0|] eqn:E.
  - injection H as <-. destruct (IH k0 eq_refl) as [Hget Hafter].
    split; [exact Hget|].
    intros [|k] Hk; [lia|]. simpl. apply Hafter. lia.
  - pose proof (proj1 (last_index_none_iff c s) E) as Hnone.
    destruct (Ascii.eqb_spec a c) as [->|Hne]; [|discriminate].
    injection H as <-. split; [reflexivity|].
    intros [|k] Hk; [lia|]. apply Hnone.
Qed.

Lemma first_occurrence_unique (c : ascii) (s : string) (i i' : nat) :
  is_first_occurrence c s i -> is_first_occurrence c s i' -> i = i'.
Proof.
  intros [Hi Hbi] [Hi' Hbi'].
  destruct (Nat.lt_trichotomy i i') as [Hlt|[Heq|Hgt]]; [|exact Heq|].
  - exfalso. exact (Hbi' i Hlt Hi).
  - exfalso. exact (Hbi i' Hgt Hi').
Qed.

Lemma last_occurrence_unique (c : ascii) (s : string) (j j' : nat) :
  is_last_occurrence c s j -> is_last_occurrence c s j' -> j = j'.
Proof.
  intros [Hj Haj] [Hj' Haj'].
  destruct (Nat.lt_trichotomy j j') as [Hlt|[Heq|Hgt]]; [|exact Heq|].
  - exfalso. exact (Haj j' Hlt Hj').
  - exfalso. exact (Haj' j Hgt Hj).
Qed.

Lemma first_index_of_occurrence (c : ascii) (s : string) (i : nat) :
  is_first_occurrence c s i -> first_index c s = Some i.
Proof.
  intros Hi. destruct (first_index c s) as [i'|] eqn:E.
  - f_equal. exact (first_occurrence_unique c s i' i (first_index_some c s i' E) Hi).
  - exfalso. destruct Hi as [Hget _].
    exact (proj1 (first_index_none_iff c s) E i Hget).
Qed.

Lemma last_index_of_occurrence (c : ascii) (s : string) (j : nat) :
  is_last_occurrence c s j -> last_index c s = Some j.
Proof.
  intros Hj. destruct (last_index c s) as [j'|] eqn:E.
  - f_equal. exact (last_occurrence_unique c s j' j (last_index_some c s j' E) Hj).
  - exfalso. destruct Hj as [Hget _].
    exact (proj1 (last_index_none_iff c s) E j Hget).
Qed.

Lemma py_find_minus_one (c : ascii) (s : string) :
  py_find c s = (-1)%Z <-> ~ contains_char c s.
Proof.
  unfold py_find, contains_char.
  destruct (first_index c s) as [i|] eqn:E.
  - split; [lia|]. intros H. exfalso. apply H.
    exists i. exact (proj1 (first_index_some c s i E)).
  - split; [|reflexivity]. intros _ [k Hk].
    exact (proj1 (first_index_none_iff c s) E k Hk).
Qed.

Lemma py_rfind_minus_one (c : ascii) (s : string) :
  py_rfind c s = (-1)%Z <-> ~ contains_char c s.
Proof.
  unfold py_rfind, contains_char.
  destruct (last_index c s) as [j|] eqn:E.
  - split; [lia|]. intros H. exfalso. apply H.
    exists j. exact (proj1 (last_index_some c s j E)).
  - split; [|reflexivity]. intros _ [k Hk].
    exact (proj1 (last_index_none_iff c s) E k Hk).
Qed.

(** C1: the extractor's location step fails with "No JSON found in response"
    exactly when the text lacks a '{' or lacks a '}', and otherwise hands on
    the substring from the first '{' to the last '}' inclusive
    ([response_text[start_idx:end_idx]], an empty string when the last '}'
    comes before the first '{'), with no brace balancing. *)
Theorem locate_json_first_open_last_close (response_text : string) :
  (locate_json response_text = Err (ValueError "No JSON found in response")
   <-> ~ contains_char "{" response_text \/ ~ contains_char "}" response_text)
  /\ (forall i j,
        is_first_occurrence "{" response_text i ->
        is_last_occurrence "}" response_text j ->
        locate_json response_text = Ok (substring i (S j - i) response_text)).
Proof.
  split.
  - unfold locate_json.
    rewrite <- py_find_minus_one, <- py_rfind_minus_one.
    destruct (Z.eqb_spec (py_find "{" response_text) (-1)) as [Hs|Hs];
      destruct (Z.eqb_spec (py_rfind "}" response_text + 1) 0) as [He|He];
      simpl; split; intros H; try discriminate; try reflexivity;
      first [left; lia | right; lia | exfalso; destruct H; lia].
  - intros i j Hi Hj. unfold locate_json, py_find, py_rfind, py_slice.
    rewrite (first_index_of_occurrence _ _ _ Hi), (last_index_of_occurrence _ _ _ Hj).
    destruct (Z.eqb_spec (Z.of_nat i) (-1)) as [E|_]; [lia|].
    destruct (Z.eqb_spec (Z.of_nat j + 1) 0) as [E|_]; [lia|].
    assert (E1 : Z.to_nat (Z.of_nat i) = i) by lia.
    assert (E2 : Z.to_nat (Z.of_nat j + 1 - Z.of_nat i) = (S j - i)%nat) by lia.
    rewrite E1, E2. reflexivity.
Qed.

(** ** The extraction loop *)

Lemma assoc_last_existsb (k : string) (kvs : list (string * json)) (v : json) :
  assoc_last k kvs = Some v ->
  existsb (fun kv => String.eqb (fst kv) k) kvs = true.
Proof.
  revert v. induction kvs as [|[k' v'] r IH]; intros v; simpl; [discriminate|].
  destruct (assoc_last k r) as [w|] eqn:E.
  - intros _. rewrite (IH w eq_refl). apply orb_true_r.
  - destruct (String.eqb_spec k k') as [->|]; [|discriminate].
    intros _. rewrite String.eqb_refl. reflexivity.
Qed.

(** Steps 1-3 reach the array bound to "questions". *)
Lemma questions_array_of_object (json_loads : string -> json + string)
    (response_text json_str : string) (kvs : list (string * json))
    (arr : list json) :
  locate_json response_text = Ok json_str ->
  json_loads json_str = inl (JObj kvs) ->
  assoc_last "questions" kvs = Some (JArr arr) ->
  questions_array json_loads response_text = Ok arr.
Proof.
  intros Hloc Hload Hq. unfold questions_array. rewrite Hloc. simpl.
  rewrite Hload. simpl. rewrite (assoc_last_existsb _ _ _ Hq). simpl.
  rewrite Hq. reflexivity.
Qed.

Lemma generate_quiz_questions_unfold (json_loads : string -> json + string)
    (complete : json -> QuizOptions -> result string) (content : json)
    (opts : QuizOptions) (response_text : string) (items : list json) :
  complete content opts = Ok response_text ->
  questions_array json_loads response_text = Ok items ->
  generate_quiz_questions json_loads complete content (Some opts)
  = build_questions items.
Proof.
  intros Hc Hq. simpl. rewrite Hc. simpl. rewrite Hq. reflexivity.
Qed.

Lemma build_questions_fails (items : list json) (bad : json) :
  In bad items -> (forall q, build_question bad <> Ok q) ->
  exists e, build_questions items = Err e.
Proof.
  intros Hin Hbad. induction items as [|x r IH]; [destruct Hin|]. simpl.
  destruct (build_question x) as [q|e] eqn:Ex; simpl; [|eauto].
  destruct Hin as [->|Hin]; [exfalso; exact (Hbad q Ex)|].
  destruct (IH Hin) as [e He]. rewrite He. simpl. eauto.
Qed.

Lemma build_questions_ok (items : list json) (qs : list Question) :
  build_questions items = Ok qs ->
  Forall2 (fun q_data q => build_question q_data = Ok q) items qs.
Proof.
  revert qs. induction items as [|x r IH]; intros qs H; simpl in H.
  - injection H as <-. constructor.
  - destruct (build_question x) as [q|e] eqn:Ex; simpl in H; [|discriminate].
    destruct (build_questions r) as [qs'|e] eqn:Er; simpl in H; [|discriminate].
    injection H as <-. constructor; [exact Ex | exact (IH qs' eq_refl)].
Qed.

(** C2: once the "questions" array is reached, a single element that fails
    Question construction makes the whole extraction fail: no list of
    Questions, in particular not the valid subset, is returned. *)
Theorem extraction_all_or_nothing (json_loads : string -> json + string)
    (complete : json -> QuizOptions -> result string) (content : json)
    (opts : QuizOptions) (response_text json_str : string)
    (kvs : list (string * json)) (arr : list json) (bad : json) :
  complete content opts = Ok response_text ->
  locate_json response_text = Ok json_str ->
  json_loads json_str = inl (JObj kvs) ->
  assoc_last "questions" kvs = Some (JArr arr) ->
  In bad arr -> (forall q, build_question bad <> Ok q) ->
  (exists e, generate_quiz_questions json_loads complete content (Some opts) = Err e)
  /\ forall qs, generate_quiz_questions json_loads complete content (Some opts) <> Ok qs.
Proof.
  intros Hc Hloc Hload Hq Hin Hbad.
  rewrite (generate_quiz_questions_unfold json_loads complete content opts
             response_text arr Hc (questions_array_of_object _ _ _ _ _ Hloc Hload Hq)).
  destruct (build_questions_fails arr bad Hin Hbad) as [e He].
  rewrite He. split; [eauto | discriminate].
Qed.

(** C7: a successful extraction returns exactly one Question per element of
    the "questions" array, built from that element, in the array's order;
    its length is the array's, whatever [num_questions] the options ask
    for. *)
Theorem extraction_one_question_per_element (json_loads : string -> json + string)
    (complete : json -> QuizOptions -> result string) (content : json)
    (opts : QuizOptions) (response_text json_str : string)
    (kvs : list (string * json)) (arr : list json) (qs : list Question) :
  complete content opts = Ok response_text ->
  locate_json response_text = Ok json_str ->
  json_loads json_str = inl (JObj kvs) ->
  assoc_last "questions" kvs = Some (JArr arr) ->
  generate_quiz_questions json_loads complete content (Some opts) = Ok qs ->
  List.length qs = List.length arr
  /\ Forall2 (fun q_data q => build_question q_data = Ok q) arr qs.
Proof.
  intros Hc Hloc Hload Hq Hgen.
  rewrite (generate_quiz_questions_unfold json_loads complete content opts
             response_text arr Hc (questions_array_of_object _ _ _ _ _ Hloc Hload Hq))
    in Hgen.
  pose proof (build_questions_ok arr qs Hgen) as HF.
  split; [symmetry; exact (Forall2_length HF) | exact HF].
Qed.

(** ** The Question and Quiz models *)

(** C5 (as corrected): in a successfully constructed Question the correct
    answer is always stored as a string: a boolean input becomes "true" or
    "false", a string input is kept as given, and an integer input is
    accepted only as 0 or 1, which the [Union[str, bool]] field turns into
    a boolean and so into "false" or "true". *)
Theorem question_correct_answer_normalised (question : json) (type : QuestionType)
    (a options explanation : json) (difficulty : DifficultyLevel)
    (topic concepts_tested : json) (q : Question) :
  Question_new question type a options explanation difficulty topic
    concepts_tested = Ok q ->
  (exists s, correct_answer q = AStr s)
  /\ (forall b, a = JBool b -> correct_answer q = AStr (if b then "true" else "false"))
  /\ (forall s, a = JStr s -> correct_answer q = AStr s)
  /\ (forall z, a = JInt z ->
        (z = 0%Z /\ correct_answer q = AStr "false")
        \/ (z = 1%Z /\ correct_answer q = AStr "true")).
Proof.
  unfold Question_new. intros H.
  destruct (validate_str 10 question) as [q1|]; [|discriminate].
  destruct (validate_str_or_bool a) as [v|] eqn:Ha; [|discriminate].
  destruct (validate_opt_list_str options) as [o|]; [|discriminate].
  destruct (validate_str 20 explanation) as [e|]; [|discriminate].
  destruct (validate_str 0 topic) as [tp|]; [|discriminate].
  destruct (validate_list_str concepts_tested) as [c|]; [|discriminate].
  injection H as <-. simpl.
  split; [destruct v; simpl; eauto|].
  split; [|split].
  - intros b Hb; subst a. simpl in Ha. injection Ha as <-. destruct b; reflexivity.
  - intros s0 Hs0; subst a. simpl in Ha. injection Ha as <-. reflexivity.
  - intros z0 Hz; subst a. simpl in Ha.
    destruct (Z.eqb z0 0) eqn:E0.
    + apply Z.eqb_eq in E0. injection Ha as <-. left. split; [exact E0 | reflexivity].
    + destruct (Z.eqb z0 1) eqn:E1; [|discriminate].
      apply Z.eqb_eq in E1. injection Ha as <-. right. split; [exact E1 | reflexivity].
Qed.

(** C5 counterexample: the non-boolean input 1 is not retained as given:
    the Question stores the string "true". *)
Lemma question_integer_answer_not_retained :
  exists q,
    Question_new (JStr "Is 1 + 1 equal to 2?") BOOLEAN (JInt 1) JNull
      (JStr "Adding one and one gives two.") EASY (JStr "arithmetic")
      (JArr [JStr "addition"]) = Ok q
    /\ (forall b, JInt 1 <> JBool b)
    /\ correct_answer q = AStr "true"
    /\ correct_answer q <> AStr "1".
Proof.
  eexists. split; [reflexivity|]. split; [discriminate|].
  split; [reflexivity | discriminate].
Qed.

(** C6: given its Questions (every other field is well-typed), a Quiz is
    built exactly when it has between 1 and 20 Questions. *)
Theorem quiz_question_count_bounds (book_id : string) (questions : list Question)
    (now : Z) (ai_model : string) (generation_prompt : option string)
    (metadata : option (list (string * json))) :
  (exists quiz, Quiz_new book_id questions now ai_model generation_prompt metadata = Ok quiz)
  <-> (1 <= List.length questions <= 20)%nat.
Proof.
  unfold Quiz_new.
  destruct (Nat.leb_spec 1 (List.length questions)) as [Hlo|Hlo],
           (Nat.leb_spec (List.length questions) 20) as [Hhi|Hhi]; simpl;
    split; intros Hq; try lia; try (destruct Hq as [quiz Hq]; discriminate); eauto.
Qed.

(** ** Error classification at POST /generate-quiz *)

Lemma locate_json_error (t : string) (e : exn) :
  locate_json t = Err e -> e = ValueError "No JSON found in response".
Proof.
  unfold locate_json.
  destruct ((py_find "{" t =? -1)%Z || (py_rfind "}" t + 1 =? 0)%Z);
    intros H; [injection H as <-; reflexivity | discriminate].
Qed.

Lemma py_getitem_error (v : json) (k : string) (e : exn) :
  py_getitem v k = Err e -> extraction_error_class e.
Proof.
  unfold extraction_error_class.
  destruct v as [| b | z | s | l | kvs]; simpl; intros H;
    try (injection H as <-; right; eexists; right; left; reflexivity).
  destruct (assoc_last k kvs); [discriminate|].
  injection H as <-. right. eexists. left. reflexivity.
Qed.

Lemma questions_array_error (json_loads : string -> json + string)
    (t : string) (e : exn) :
  questions_array json_loads t = Err e -> extraction_error_class e.
Proof.
  unfold questions_array, extraction_error_class.
  destruct (locate_json t) as [json_str|e0] eqn:Hloc; simpl.
  - destruct (json_loads json_str) as [data|m]; simpl.
    + destruct (py_contains "questions" data) as [has|e1] eqn:Hc; simpl.
      * destruct has; simpl.
        -- destruct (py_getitem data "questions") as [qv|e2] eqn:Hg; simpl.
           ++ destruct qv; simpl; intros H; try discriminate;
                injection H as <-; right; eexists; right; left; reflexivity.
           ++ intros H. injection H as <-. exact (py_getitem_error _ _ _ Hg).
        -- intros H. injection H as <-. left. reflexivity.
      * intros H. injection H as <-.
        destruct data; simpl in Hc; try discriminate;
          injection Hc as <-; right; eexists; right; left; reflexivity.
    + intros H. injection H as <-. left. reflexivity.
  - intros H. injection H as <-. rewrite (locate_json_error t e0 Hloc).
    left. reflexivity.
Qed.

Lemma enum_error_value (cls : string) (v : json) :
  is_value_error (enum_error cls v) = true.
Proof. destruct v; reflexivity. Qed.

(** Steps over one [q_data[key]] access of the loop body: a failing access
    raises a KeyError or TypeError. *)
Local Ltac step_getitem :=
  lazymatch goal with
  | |- bind (py_getitem ?v ?k) _ = Err _ -> _ =>
      let E := fresh "E" in
      destruct (py_getitem v k) eqn:E; simpl;
      [| intros H; injection H as <-; exact (py_getitem_error _ _ _ E)]
  end.

Lemma build_question_error (q_data : json) (e : exn) :
  build_question q_data = Err e -> extraction_error_class e.
Proof.
  unfold build_question.
  step_getitem. step_getitem.
  destruct (QuestionType_call a0) eqn:Et; simpl.
  2:{ intros H. injection H as <-. left.
      destruct a0 as [| | | s | |]; simpl in Et;
        try (injection Et as <-; reflexivity).
      repeat (destruct (String.eqb s _); [discriminate|]).
      injection Et as <-. first [reflexivity | apply enum_error_value]. }
  step_getitem.
  destruct (py_dict_get q_data "options") eqn:Eo; simpl.
  2:{ intros H. injection H as <-. unfold extraction_error_class.
      destruct q_data; simpl in Eo;
        try (injection Eo as <-; right; eexists; right; right; reflexivity).
      destruct (assoc_last "options" kvs); discriminate. }
  step_getitem. step_getitem.
  destruct (DifficultyLevel_call a5) eqn:Ed; simpl.
  2:{ intros H. injection H as <-. left.
      destruct a5 as [| | | s | |]; simpl in Ed;
        try (injection Ed as <-; reflexivity).
      repeat (destruct (String.eqb s _); [discriminate|]).
      injection Ed as <-. first [reflexivity | apply enum_error_value]. }
  step_getitem. step_getitem.
  unfold Question_new.
  repeat match goal with
         | |- context [match ?x with Some _ => _ | None => _ end] => destruct x
         end;
    intros H; try discriminate; injection H as <-; left; reflexivity.
Qed.

Lemma build_questions_error (items : list json) (e : exn) :
  build_questions items = Err e -> extraction_error_class e.
Proof.
  induction items as [|x r IH]; simpl; [discriminate|].
  destruct (build_question x) as [q|e0] eqn:Ex; simpl.
  - destruct (build_questions r) as [qs|e1]; simpl; [discriminate|].
    intros H. injection H as <-. exact (IH eq_refl).
  - intros H. injection H as <-. exact (build_question_error x e0 Ex).
Qed.

(** C3 (as corrected): an extraction failure reaches POST /generate-quiz
    unchanged (a JSON decode error already re-raised as ValueError) and is
    answered by its class: 400 for a ValueError (no JSON found, malformed
    JSON, no "questions" key, an invalid type or difficulty value, a pydantic
    validation failure), 500 otherwise (a KeyError for a missing question
    field, a TypeError or AttributeError for a value of the wrong shape). *)
Theorem generate_quiz_extraction_failure_status (default_ai_model : string)
    (json_loads : string -> json + string)
    (complete : json -> QuizOptions -> result string)
    (get_document : string -> result json) (now : Z)
    (insert_one : Quiz -> result string) (body : json)
    (request : Request.QuizGenerationRequest) (content : json)
    (opts : QuizOptions) (response_text : string) (e : exn) :
  parse_request body = Ok request ->
  resolve_content get_document request = Ok content ->
  Request.options request = Some opts ->
  complete content opts = Ok response_text ->
  bind (questions_array json_loads response_text) build_questions = Err e ->
  http_generate_quiz default_ai_model json_loads complete get_document now
    insert_one body
  = http_error (if is_value_error e then 400 else 500) e
  /\ extraction_error_class e.
Proof.
  intros Hp Hr Ho Hc He. split.
  - unfold http_generate_quiz. rewrite Hp. unfold generate_quiz.
    rewrite Hr. simpl. rewrite Ho. simpl. rewrite Hc. simpl.
    destruct (questions_array json_loads response_text) as [items|e0];
      simpl in He |- *; [rewrite He | injection He as ->]; simpl;
      destruct (is_value_error e); reflexivity.
  - destruct (questions_array json_loads response_text) as [items|e0] eqn:Hq;
      simpl in He.
    + exact (build_questions_error items e He).
    + injection He as <-. exact (questions_array_error json_loads response_text e0 Hq).
Qed.

Lemma generate_quiz_extraction_failure_status_witness :
  parse_request sample_request_body
    = Ok (Request.mkRequest sample_content "book-123" (Some []) (Some default_options))
  /\ resolve_content (fun _ => Err (RuntimeError "not called"))
       (Request.mkRequest sample_content "book-123" (Some []) (Some default_options))
     = Ok (JStr sample_content)
  /\ Request.options (Request.mkRequest sample_content "book-123" (Some []) (Some default_options))
     = Some default_options
  /\ complete_constant "Sorry, I cannot help." (JStr sample_content) default_options
     = Ok "Sorry, I cannot help."
  /\ bind (questions_array (loads_constant JNull) "Sorry, I cannot help.") build_questions
     = Err (ValueError "No JSON found in response")
  /\ http_generate_quiz "claude-3-sonnet-20240229" (loads_constant JNull)
       (complete_constant "Sorry, I cannot help.") (fun _ => Err (RuntimeError "not called"))
       0 (fun _ => Ok "quiz-1") sample_request_body
     = http_error 400 (ValueError "No JSON found in response")
  /\ extraction_error_class (ValueError "No JSON found in response").
Proof.
  do 5 (split; [reflexivity|]).
  exact (generate_quiz_extraction_failure_status "claude-3-sonnet-20240229"
           (loads_constant JNull) (complete_constant "Sorry, I cannot help.")
           (fun _ => Err (RuntimeError "not called")) 0 (fun _ => Ok "quiz-1")
           sample_request_body
           (Request.mkRequest sample_content "book-123" (Some []) (Some default_options))
           (JStr sample_content) default_options "Sorry, I cannot help."
           (ValueError "No JSON found in response")
           eq_refl eq_refl eq_refl eq_refl eq_refl).
Defined.

(** C3 counterexample: a model answer with no JSON in it is surfaced by
    POST /generate-quiz as 400, not 500. *)
Lemma generate_quiz_no_json_is_400 :
  locate_json "Sorry, I cannot help." = Err (ValueError "No JSON found in response")
  /\ status_code
       (http_generate_quiz "claude-3-sonnet-20240229" (loads_constant JNull)
          (complete_constant "Sorry, I cannot help.")
          (fun _ => Err (RuntimeError "not called")) 0 (fun _ => Ok "quiz-1")
          sample_request_body) = 400%Z
  /\ status_code
       (http_generate_quiz "claude-3-sonnet-20240229" (loads_constant JNull)
          (complete_constant "Sorry, I cannot help.")
          (fun _ => Err (RuntimeError "not called")) 0 (fun _ => Ok "quiz-1")
          sample_request_body) <> 500%Z.
Proof.
  split; [reflexivity|]. split; [reflexivity|]. vm_compute. discriminate.
Qed.

(** C4 (code defect): a request body without "content" never reaches the
    content fetch: the required [content] field fails request validation
    and POST /generate-quiz answers 422, whatever the collaborators do. *)
Theorem generate_quiz_requires_content (default_ai_model : string)
    (json_loads : string -> json + string)
    (complete : json -> QuizOptions -> result string)
    (get_document : string -> result json) (now : Z)
    (insert_one : Quiz -> result string) :
  parse_request (JObj [("book_id", JStr "book-123")])
    = Err (ValidationError "validation error for QuizGenerationRequest")
  /\ status_code (http_generate_quiz default_ai_model json_loads complete
                    get_document now insert_one (JObj [("book_id", JStr "book-123")]))
     = 422%Z.
Proof. split; reflexivity. Qed.

(** ** The persistence gateway and the health probe *)

(** C8: for a quiz identifier that ObjectId rejects, read-by-id gives None
    and delete-by-id gives false (both are total: no exception escapes),
    whatever the store would answer. *)
Theorem malformed_id_not_found
    (find_one : string -> result (option (list (string * json))))
    (delete_one : string -> result Z) (quiz_id : string) (e : exn) :
  object_id quiz_id = Err e ->
  db_get_quiz find_one quiz_id = None /\ db_delete_quiz delete_one quiz_id = false.
Proof.
  intros H. unfold db_get_quiz, db_delete_quiz. rewrite H. split; reflexivity.
Qed.

Lemma malformed_id_not_found_witness :
  object_id "nonexistent-id"
    = Err (InvalidId "'nonexistent-id' is not a valid ObjectId, it must be a 12-byte input or a 24-character hex string")
  /\ db_get_quiz (fun _ => Ok (Some [("book_id", JStr "book-123")])) "nonexistent-id" = None
  /\ db_delete_quiz (fun _ => Ok 1%Z) "nonexistent-id" = false.
Proof.
  split; [reflexivity|].
  exact (malformed_id_not_found (fun _ => Ok (Some [("book_id", JStr "book-123")]))
           (fun _ => Ok 1%Z) "nonexistent-id"
           (InvalidId "'nonexistent-id' is not a valid ObjectId, it must be a 12-byte input or a 24-character hex string")
           eq_refl).
Defined.

Lemma string_append_empty_r (s : string) : (s ++ "")%string = s.
Proof. induction s as [|c s IH]; simpl; [reflexivity | rewrite IH; reflexivity]. Qed.

(** C9: GET /health always answers 200; when the ping raises, the body says
    status "unhealthy", database "disconnected" and its "error" field holds
    [str(e)], which contains the exception's message; when the ping
    succeeds it says status "healthy" and database "connected". *)
Theorem health_check_reports_store_state (service_name : string)
    (ping : result unit) :
  status_code (health_check service_name ping) = 200%Z
  /\ match ping with
     | Err e =>
         response_field (health_check service_name ping) "status" = Ok (JStr "unhealthy")
         /\ response_field (health_check service_name ping) "database" = Ok (JStr "disconnected")
         /\ exists before after,
              response_field (health_check service_name ping) "error"
              = Ok (JStr (before ++ exn_msg e ++ after))
     | Ok _ =>
         response_field (health_check service_name ping) "status" = Ok (JStr "healthy")
         /\ response_field (health_check service_name ping) "database" = Ok (JStr "connected")
     end.
Proof.
  destruct ping as [u|e]; simpl; split; try reflexivity.
  - split; reflexivity.
  - split; [reflexivity|]. split; [reflexivity|].
    destruct e; simpl;
      first [ exists "'", "'"; reflexivity
            | exists "", ""; rewrite string_append_empty_r; reflexivity ].
Qed.

(** C10: the not-found sentinels also absorb store failures: for every
    quiz_id, when the find (resp. delete) of its ObjectId raises, read-by-id
    gives None and GET /quizzes/{quiz_id} answers 404 (resp. delete-by-id
    gives false and DELETE /quizzes/{quiz_id} answers 404), not 500. *)
Theorem store_failure_reads_as_not_found
    (find_one : string -> result (option (list (string * json))))
    (delete_one : string -> result Z)
    (valid_quiz_document : list (string * json) -> bool) (quiz_id : string) :
  ((forall oid, object_id quiz_id = Ok oid -> exists e, find_one oid = Err e) ->
   db_get_quiz find_one quiz_id = None
   /\ status_code (http_get_quiz find_one valid_quiz_document quiz_id) = 404%Z)
  /\ ((forall oid, object_id quiz_id = Ok oid -> exists e, delete_one oid = Err e) ->
      db_delete_quiz delete_one quiz_id = false
      /\ status_code (http_delete_quiz delete_one quiz_id) = 404%Z).
Proof.
  split; intros Hfail.
  - assert (Hnone : db_get_quiz find_one quiz_id = None).
    { unfold db_get_quiz. destruct (object_id quiz_id) as [oid|e] eqn:Hid;
        simpl; [|reflexivity].
      destruct (Hfail oid eq_refl) as [e He]. rewrite He. reflexivity. }
    split; [exact Hnone|].
    unfold http_get_quiz, service_get_quiz. rewrite Hnone. reflexivity.
  - assert (Hfalse : db_delete_quiz delete_one quiz_id = false).
    { unfold db_delete_quiz. destruct (object_id quiz_id) as [oid|e] eqn:Hid;
        simpl; [|reflexivity].
      destruct (Hfail oid eq_refl) as [e He]. rewrite He. reflexivity. }
    split; [exact Hfalse|].
    unfold http_delete_quiz. rewrite Hfalse. reflexivity.
Qed.

(** ** Witnesses of the extraction theorems *)

Lemma extraction_all_or_nothing_witness :
  complete_constant "{}" (JStr sample_content) default_options = Ok "{}"
  /\ locate_json "{}" = Ok "{}"
  /\ loads_constant (JObj [("questions", JArr [sample_question_json; sample_short_question_json])]) "{}"
     = inl (JObj [("questions", JArr [sample_question_json; sample_short_question_json])])
  /\ assoc_last "questions" [("questions", JArr [sample_question_json; sample_short_question_json])]
     = Some (JArr [sample_question_json; sample_short_question_json])
  /\ In sample_short_question_json [sample_question_json; sample_short_question_json]
  /\ (forall q, build_question sample_short_question_json <> Ok q)
  /\ (exists e, generate_quiz_questions
                  (loads_constant (JObj [("questions", JArr [sample_question_json; sample_short_question_json])]))
                  (complete_constant "{}") (JStr sample_content) (Some default_options) = Err e)
  /\ (forall qs, generate_quiz_questions
                   (loads_constant (JObj [("questions", JArr [sample_question_json; sample_short_question_json])]))
                   (complete_constant "{}") (JStr sample_content) (Some default_options) <> Ok qs).
Proof.
  assert (Hbad : forall q, build_question sample_short_question_json <> Ok q)
    by (intros q H; vm_compute in H; discriminate).
  do 4 (split; [reflexivity|]).
  split; [right; left; reflexivity|].
  split; [exact Hbad|].
  exact (extraction_all_or_nothing
           (loads_constant (JObj [("questions", JArr [sample_question_json; sample_short_question_json])]))
           (complete_constant "{}") (JStr sample_content) default_options "{}" "{}"
           [("questions", JArr [sample_question_json; sample_short_question_json])]
           [sample_question_json; sample_short_question_json] sample_short_question_json
           eq_refl eq_refl eq_refl eq_refl (or_intror (or_introl eq_refl)) Hbad).
Defined.

Lemma extraction_one_question_per_element_witness :
  complete_constant "noise {} more" (JStr sample_content) default_options = Ok "noise {} more"
  /\ locate_json "noise {} more" = Ok "{}"
  /\ loads_constant (JObj [("questions", JArr [sample_question_json])]) "{}"
     = inl (JObj [("questions", JArr [sample_question_json])])
  /\ assoc_last "questions" [("questions", JArr [sample_question_json])]
     = Some (JArr [sample_question_json])
  /\ generate_quiz_questions (loads_constant (JObj [("questions", JArr [sample_question_json])]))
       (complete_constant "noise {} more") (JStr sample_content)
       (Some (mkQuizOptions 5 None [MULTIPLE_CHOICE] "en"))
     = Ok [sample_question]
  /\ List.length [sample_question] = List.length [sample_question_json]
  /\ Forall2 (fun q_data q => build_question q_data = Ok q) [sample_question_json] [sample_question].
Proof.
  do 5 (split; [reflexivity|]).
  exact (extraction_one_question_per_element
           (loads_constant (JObj [("questions", JArr [sample_question_json])]))
           (complete_constant "noise {} more") (JStr sample_content)
           (mkQuizOptions 5 None [MULTIPLE_CHOICE] "en") "noise {} more" "{}"
           [("questions", JArr [sample_question_json])] [sample_question_json]
           [sample_question] eq_refl eq_refl eq_refl eq_refl eq_refl).
Defined.

Lemma question_correct_answer_normalised_witness :
  Question_new (JStr "Is Rome the capital of Italy?") BOOLEAN (JBool true) JNull
    (JStr "Rome has been the capital of Italy since 1871.") EASY (JStr "Geography")
    (JArr [JStr "capitals"])
  = Ok (mkQuestion "Is Rome the capital of Italy?" BOOLEAN (AStr "true") None
          "Rome has been the capital of Italy since 1871." EASY "Geography" ["capitals"])
  /\ (exists s, correct_answer (mkQuestion "Is Rome the capital of Italy?" BOOLEAN
                   (AStr "true") None "Rome has been the capital of Italy since 1871."
                   EASY "Geography" ["capitals"]) = AStr s)
  /\ (forall b, JBool true = JBool b ->
        correct_answer (mkQuestion "Is Rome the capital of Italy?" BOOLEAN (AStr "true")
          None "Rome has been the capital of Italy since 1871." EASY "Geography"
          ["capitals"]) = AStr (if b then "true" else "false"))
  /\ (forall s, JBool true = JStr s ->
        correct_answer (mkQuestion "Is Rome the capital of Italy?" BOOLEAN (AStr "true")
          None "Rome has been the capital of Italy since 1871." EASY "Geography"
          ["capitals"]) = AStr s)
  /\ (forall z, JBool true = JInt z ->
        (z = 0%Z /\ correct_answer (mkQuestion "Is Rome the capital of Italy?" BOOLEAN
           (AStr "true") None "Rome has been the capital of Italy since 1871." EASY
           "Geography" ["capitals"]) = AStr "false")
        \/ (z = 1%Z /\ correct_answer (mkQuestion "Is Rome the capital of Italy?" BOOLEAN
           (AStr "true") None "Rome has been the capital of Italy since 1871." EASY
           "Geography" ["capitals"]) = AStr "true")).
Proof.
  split; [reflexivity|].
  exact (question_correct_answer_normalised (JStr "Is Rome the capital of Italy?") BOOLEAN
           (JBool true) JNull (JStr "Rome has been the capital of Italy since 1871.") EASY
           (JStr "Geography") (JArr [JStr "capitals"])
           (mkQuestion "Is Rome the capital of Italy?" BOOLEAN (AStr "true") None
              "Rome has been the capital of Italy since 1871." EASY "Geography" ["capitals"])
           eq_refl).
Defined.

(* ================================================================== *)
(** * Further properties of the code *)

(** ** Models *)

(** A [str] field validated with a minimum length has at least that length. *)
Lemma validate_str_min_length (n : nat) (v : json) (s : string) :
  validate_str n v = Some s -> (n <= String.length s)%nat.
Proof.
  destruct v as [| | | s' | |]; simpl; try discriminate.
  destruct (Nat.leb_spec n (String.length s')); [|discriminate].
  intros Hs. injection Hs as <-. assumption.
Qed.

(** X2: Every Question that validates has a question text of at least 10
    characters, an explanation of at least 20, a string correct answer, and
    keeps the given type and difficulty. *)
Theorem question_field_invariants (qv : json) (t : QuestionType)
    (a ov ev : json) (d : DifficultyLevel) (tv cv : json) (q : Question) :
  Question_new qv t a ov ev d tv cv = Ok q ->
  (10 <= String.length (question q))%nat
  /\ (20 <= String.length (explanation q))%nat
  /\ (exists s, correct_answer q = AStr s)
  /\ type q = t /\ difficulty q = d.
Proof.
  unfold Question_new. intros H.
  destruct (validate_str 10 qv) as [sq|] eqn:Eq; [|discriminate].
  destruct (validate_str_or_bool a) as [v|]; [|discriminate].
  destruct (validate_opt_list_str ov) as [o|]; [|discriminate].
  destruct (validate_str 20 ev) as [se|] eqn:Ee; [|discriminate].
  destruct (validate_str 0 tv) as [tp|]; [|discriminate].
  destruct (validate_list_str cv) as [c|]; [|discriminate].
  injection H as <-. simpl.
  split; [exact (validate_str_min_length _ _ _ Eq)|].
  split; [exact (validate_str_min_length _ _ _ Ee)|]. split; [|split; reflexivity].
  destruct v; simpl; eauto.
Qed.

Lemma question_field_invariants_witness :
  Question_new (JStr "What is the capital of Italy?") MULTIPLE_CHOICE (JStr "Rome")
    (JArr [JStr "Rome"; JStr "Milan"; JStr "Turin"; JStr "Naples"])
    (JStr "Rome has been the capital of Italy since 1871.") EASY (JStr "Geography")
    (JArr [JStr "capitals"]) = Ok sample_question
  /\ (10 <= String.length (question sample_question))%nat
  /\ (20 <= String.length (explanation sample_question))%nat
  /\ (exists s, correct_answer sample_question = AStr s)
  /\ type sample_question = MULTIPLE_CHOICE
  /\ difficulty sample_question = EASY.
Proof.
  split; [reflexivity|].
  exact (question_field_invariants (JStr "What is the capital of Italy?") MULTIPLE_CHOICE
           (JStr "Rome") (JArr [JStr "Rome"; JStr "Milan"; JStr "Turin"; JStr "Naples"])
           (JStr "Rome has been the capital of Italy since 1871.") EASY (JStr "Geography")
           (JArr [JStr "capitals"]) sample_question eq_refl).
Defined.

(** X3: A question element that is not a JSON object fails with a TypeError, and
    an object without a "question" key fails with KeyError('question'),
    before any field is validated. *)
Theorem build_question_shape_errors :
  (forall q_data, (forall kvs, q_data <> JObj kvs) ->
     exists m, build_question q_data = Err (TypeError m))
  /\ (forall kvs, assoc_last "question" kvs = None ->
        build_question (JObj kvs) = Err (KeyError "question")).
Proof.
  split.
  - intros q_data Hnot. unfold build_question.
    destruct q_data as [| b | z | s | l | kvs]; simpl; eauto.
    exfalso. exact (Hnot kvs eq_refl).
  - intros kvs H. unfold build_question. simpl. rewrite H. reflexivity.
Qed.

(** X4: A "questions" value that is an empty array, an empty string or an empty
    object is iterated as no element at all: extraction succeeds with no
    Question instead of reporting a missing or malformed field. *)
Theorem empty_questions_value_extracts_nothing (json_loads : string -> json + string)
    (complete : json -> QuizOptions -> result string) (content : json)
    (opts : QuizOptions) (response_text json_str : string)
    (kvs : list (string * json)) (v : json) :
  complete content opts = Ok response_text ->
  locate_json response_text = Ok json_str ->
  json_loads json_str = inl (JObj kvs) ->
  assoc_last "questions" kvs = Some v ->
  v = JArr [] \/ v = JStr "" \/ v = JObj [] ->
  generate_quiz_questions json_loads complete content (Some opts) = Ok [].
Proof.
  intros Hc Hloc Hload Hq Hv. simpl. rewrite Hc. simpl.
  unfold questions_array. rewrite Hloc. simpl. rewrite Hload. simpl.
  rewrite (assoc_last_existsb _ _ _ Hq). simpl. rewrite Hq.
  destruct Hv as [->|[->| ->]]; reflexivity.
Qed.

Lemma empty_questions_value_extracts_nothing_witness :
  complete_constant "{}" (JStr sample_content) default_options = Ok "{}"
  /\ locate_json "{}" = Ok "{}"
  /\ loads_constant (JObj [("questions", JStr "")]) "{}" = inl (JObj [("questions", JStr "")])
  /\ assoc_last "questions" [("questions", JStr "")] = Some (JStr "")
  /\ (JStr "" = JArr [] \/ JStr "" = JStr "" \/ JStr "" = JObj [])
  /\ generate_quiz_questions (loads_constant (JObj [("questions", JStr "")]))
       (complete_constant "{}") (JStr sample_content) (Some default_options) = Ok [].
Proof.
  do 4 (split; [reflexivity|]). split; [right; left; reflexivity|].
  exact (empty_questions_value_extracts_nothing
           (loads_constant (JObj [("questions", JStr "")])) (complete_constant "{}")
           (JStr sample_content) default_options "{}" "{}" [("questions", JStr "")]
           (JStr "") eq_refl eq_refl eq_refl eq_refl (or_intror (or_introl eq_refl))).
Defined.

(** ** Request validation and quiz generation *)

(** The [content] a validated request carries has at least 100 characters. *)
Lemma parse_request_content_length (body : json) (r : Request.QuizGenerationRequest) :
  parse_request body = Ok r -> (100 <= String.length (Request.content r))%nat.
Proof.
  destruct body as [| | | | | kvs]; simpl; try discriminate.
  destruct (required kvs "content" (validate_str 100)) as [c|] eqn:Ec;
    [|discriminate].
  repeat match goal with
         | |- context [match ?x with Some _ => _ | None => _ end] => destruct x
         end; try discriminate.
  intros Hr. injection Hr as <-. simpl.
  unfold required in Ec. destruct (assoc_last "content" kvs) as [v|]; [|discriminate].
  exact (validate_str_min_length _ _ _ Ec).
Qed.

(** A content string of at least 100 characters is used as it is. *)
Lemma resolve_content_long (get_document : string -> result json)
    (request : Request.QuizGenerationRequest) :
  (100 <= String.length (Request.content request))%nat ->
  resolve_content get_document request = Ok (JStr (Request.content request)).
Proof.
  intros H. unfold resolve_content.
  assert (Ht : py_truthy (JStr (Request.content request)) = true).
  { simpl. destruct (Request.content request); [simpl in H; lia | reflexivity]. }
  rewrite Ht. cbn [bind py_len].
  destruct (Nat.ltb_spec (String.length (Request.content request)) 100); [lia|].
  reflexivity.
Qed.

(** Look up the keys of a literal JSON object. *)
Ltac compute_keys :=
  repeat match goal with
         | |- context [assoc_last ?k ?kvs] =>
             let r := eval simpl in (assoc_last k kvs) in
             change (assoc_last k kvs) with r
         end.

(** The field checks of [parse_request] fail as a whole when one fails. *)
Ltac parse_request_fails :=
  repeat match goal with
         | |- context [match ?x with Some _ => _ | None => _ end] => destruct x
         end; reflexivity.

(** X5: Every request that passes validation carries a content of at least 100
    characters, so generation uses that content as it is and never asks the
    document service for the book's content. *)
Theorem validated_request_content_used_as_is (get_document : string -> result json)
    (body : json) (request : Request.QuizGenerationRequest) :
  parse_request body = Ok request ->
  (100 <= String.length (Request.content request))%nat
  /\ resolve_content get_document request = Ok (JStr (Request.content request)).
Proof.
  intros H. pose proof (parse_request_content_length _ _ H) as Hl.
  split; [exact Hl | exact (resolve_content_long get_document request Hl)].
Qed.

Lemma validated_request_content_used_as_is_witness :
  parse_request sample_request_body
    = Ok (Request.mkRequest sample_content "book-123" (Some []) (Some default_options))
  /\ (100 <= String.length sample_content)%nat
  /\ resolve_content (fun _ => Err (StoreError "unreachable"))
       (Request.mkRequest sample_content "book-123" (Some []) (Some default_options))
     = Ok (JStr sample_content).
Proof.
  split; [reflexivity|].
  exact (validated_request_content_used_as_is (fun _ => Err (StoreError "unreachable"))
           sample_request_body
           (Request.mkRequest sample_content "book-123" (Some []) (Some default_options))
           eq_refl).
Defined.

(** X6: POST /generate-quiz answers 422 to a body whose "content" is a string
    shorter than 100 characters, whatever the other fields hold. *)
Theorem short_content_is_422 (default_ai_model : string)
    (json_loads : string -> json + string)
    (complete : json -> QuizOptions -> result string)
    (get_document : string -> result json) (now : Z)
    (insert_one : Quiz -> result string) (kvs : list (string * json)) (s : string) :
  assoc_last "content" kvs = Some (JStr s) ->
  (String.length s < 100)%nat ->
  http_generate_quiz default_ai_model json_loads complete get_document now insert_one
    (JObj kvs)
  = http_error 422 (ValidationError "validation error for QuizGenerationRequest").
Proof.
  intros Hc Hl. unfold http_generate_quiz, parse_request, required at 1.
  rewrite Hc. cbn [validate_str].
  destruct (Nat.leb_spec 100 (String.length s)); [lia|]. reflexivity.
Qed.

Lemma short_content_is_422_witness :
  assoc_last "content" [("content", JStr "Too short."); ("book_id", JStr "book-123")]
    = Some (JStr "Too short.")
  /\ (String.length "Too short." < 100)%nat
  /\ http_generate_quiz "model" (loads_constant JNull) (complete_constant "")
       (fun _ => Ok JNull) 0 (fun _ => Ok "id")
       (JObj [("content", JStr "Too short."); ("book_id", JStr "book-123")])
     = http_error 422 (ValidationError "validation error for QuizGenerationRequest").
Proof.
  split; [reflexivity|]. split; [cbv; lia|].
  exact (short_content_is_422 "model" (loads_constant JNull) (complete_constant "")
           (fun _ => Ok JNull) 0 (fun _ => Ok "id")
           [("content", JStr "Too short."); ("book_id", JStr "book-123")] "Too short."
           eq_refl ltac:(cbv; lia)).
Defined.

(** X8: An explicit "options": null validates, but generation then reads an
    attribute of None: POST /generate-quiz answers 500 with the
    AttributeError, before the model is called and whatever the
    collaborators do. *)
Theorem null_options_is_500 (default_ai_model : string)
    (json_loads : string -> json + string)
    (complete : json -> QuizOptions -> result string)
    (get_document : string -> result json) (now : Z)
    (insert_one : Quiz -> result string) (s b : string) :
  (100 <= String.length s)%nat ->
  http_generate_quiz default_ai_model json_loads complete get_document now insert_one
    (JObj [("content", JStr s); ("book_id", JStr b); ("options", JNull)])
  = http_error 500
      (AttributeError "'NoneType' object has no attribute 'difficulty_distribution'").
Proof.
  intros H.
  assert (Hp : parse_request (JObj [("content", JStr s); ("book_id", JStr b); ("options", JNull)])
               = Ok (Request.mkRequest s b (Some []) None)).
  { apply Nat.leb_le in H.
    unfold parse_request, required, with_default. compute_keys.
    unfold validate_str at 1. rewrite H. reflexivity. }
  unfold http_generate_quiz. rewrite Hp. unfold generate_quiz.
  rewrite (resolve_content_long get_document (Request.mkRequest s b (Some []) None) H).
  reflexivity.
Qed.

Lemma null_options_is_500_witness :
  (100 <= String.length sample_content)%nat
  /\ http_generate_quiz "model" (loads_constant JNull) (complete_constant "")
       (fun _ => Ok JNull) 0 (fun _ => Ok "id")
       (JObj [("content", JStr sample_content); ("book_id", JStr "book-123");
              ("options", JNull)])
     = http_error 500
         (AttributeError "'NoneType' object has no attribute 'difficulty_distribution'").
Proof.
  split; [cbv; lia|].
  exact (null_options_is_500 "model" (loads_constant JNull) (complete_constant "")
           (fun _ => Ok JNull) 0 (fun _ => Ok "id") sample_content "book-123"
           ltac:(cbv; lia)).
Defined.

(** X9: POST /generate-quiz answers 422 when the options ask for a number of
    questions below 1 or above 20, whatever the other fields hold. *)
Theorem num_questions_out_of_range_is_422 (default_ai_model : string)
    (json_loads : string -> json + string)
    (complete : json -> QuizOptions -> result string)
    (get_document : string -> result json) (now : Z)
    (insert_one : Quiz -> result string) (kvs okvs : list (string * json)) (n : Z) :
  assoc_last "options" kvs = Some (JObj okvs) ->
  assoc_last "num_questions" okvs = Some (JInt n) ->
  (n < 1 \/ 20 < n)%Z ->
  http_generate_quiz default_ai_model json_loads complete get_document now insert_one
    (JObj kvs)
  = http_error 422 (ValidationError "validation error for QuizGenerationRequest").
Proof.
  intros Ho Hn Hr.
  assert (Hv : validate_int_range 1 20 (JInt n) = None).
  { unfold validate_int_range.
    destruct (Z.leb_spec 1 n), (Z.leb_spec n 20); simpl; try reflexivity; lia. }
  assert (Hw : with_default kvs "options" (Some default_options)
                 (fun v => match v with
                           | JNull => Some None
                           | _ => option_map Some (parse_options v)
                           end) = None).
  { unfold with_default at 1. rewrite Ho. unfold parse_options, with_default at 1.
    rewrite Hn, Hv. reflexivity. }
  unfold http_generate_quiz, parse_request. rewrite Hw. parse_request_fails.
Qed.

Lemma num_questions_out_of_range_is_422_witness :
  assoc_last "options"
    [("content", JStr sample_content); ("book_id", JStr "book-123");
     ("options", JObj [("num_questions", JInt 25)])]
    = Some (JObj [("num_questions", JInt 25)])
  /\ assoc_last "num_questions" [("num_questions", JInt 25)] = Some (JInt 25)
  /\ (25 < 1 \/ 20 < 25)%Z
  /\ http_generate_quiz "model" (loads_constant JNull) (complete_constant "")
       (fun _ => Ok JNull) 0 (fun _ => Ok "id")
       (JObj [("content", JStr sample_content); ("book_id", JStr "book-123");
              ("options", JObj [("num_questions", JInt 25)])])
     = http_error 422 (ValidationError "validation error for QuizGenerationRequest").
Proof.
  split; [reflexivity|]. split; [reflexivity|]. split; [right; lia|].
  exact (num_questions_out_of_range_is_422 "model" (loads_constant JNull)
           (complete_constant "") (fun _ => Ok JNull) 0 (fun _ => Ok "id")
           [("content", JStr sample_content); ("book_id", JStr "book-123");
            ("options", JObj [("num_questions", JInt 25)])]
           [("num_questions", JInt 25)] 25 eq_refl eq_refl ltac:(right; lia)).
Defined.

(** X10: When the model's answer yields no question or more than 20, the Quiz
    model rejects the list: POST /generate-quiz answers 400 with the
    ValidationError, and the answer does not depend on [insert_one], so
    nothing is stored. *)
Theorem question_count_out_of_range_is_400 (default_ai_model : string)
    (json_loads : string -> json + string)
    (complete : json -> QuizOptions -> result string)
    (get_document : string -> result json) (now : Z)
    (body : json) (request : Request.QuizGenerationRequest) (qs : list Question) :
  parse_request body = Ok request ->
  generate_quiz_questions json_loads complete (JStr (Request.content request))
    (Request.options request) = Ok qs ->
  (List.length qs = 0 \/ 20 < List.length qs)%nat ->
  forall insert_one : Quiz -> result string,
  http_generate_quiz default_ai_model json_loads complete get_document now insert_one body
  = http_error 400 (ValidationError "questions: List should have between 1 and 20 items").
Proof.
  intros Hp Hq Hl insert_one. unfold http_generate_quiz. rewrite Hp.
  unfold generate_quiz.
  rewrite (resolve_content_long get_document request (parse_request_content_length _ _ Hp)).
  cbn [bind]. rewrite Hq. cbn [bind]. unfold Quiz_new.
  assert (Hb : ((1 <=? List.length qs) && (List.length qs <=? 20))%nat = false).
  { destruct Hl as [Hl|Hl].
    - rewrite Hl. reflexivity.
    - destruct (Nat.leb_spec (List.length qs) 20); [lia|]. apply andb_false_r. }
  rewrite Hb. reflexivity.
Qed.

Lemma question_count_out_of_range_is_400_witness :
  parse_request sample_request_body
    = Ok (Request.mkRequest sample_content "book-123" (Some []) (Some default_options))
  /\ generate_quiz_questions (loads_constant (JObj [("questions", JArr [])]))
       (complete_constant "{}") (JStr sample_content) (Some default_options) = Ok []
  /\ (List.length (@nil Question) = 0 \/ 20 < List.length (@nil Question))%nat
  /\ http_generate_quiz "model" (loads_constant (JObj [("questions", JArr [])]))
       (complete_constant "{}") (fun _ => Ok JNull) 0 (fun _ => Ok "id")
       sample_request_body
     = http_error 400 (ValidationError "questions: List should have between 1 and 20 items").
Proof.
  split; [reflexivity|]. split; [reflexivity|]. split; [left; reflexivity|].
  exact (question_count_out_of_range_is_400 "model"
           (loads_constant (JObj [("questions", JArr [])])) (complete_constant "{}")
           (fun _ => Ok JNull) 0 sample_request_body
           (Request.mkRequest sample_content "book-123" (Some []) (Some default_options))
           [] eq_refl eq_refl (or_introl eq_refl) (fun _ => Ok "id")).
Defined.

(** X11: A successful generation went through every step: the content was
    resolved, the model's answer gave between 1 and 20 questions, and
    [insert_one] stored the Quiz built from the request's book_id and
    metadata, those questions, the creation time, the default model and the
    fixed prompt text. The response reports the stored id, the number of
    questions, the status "success" and the default model. *)
Theorem generate_quiz_success_summary (default_ai_model : string)
    (json_loads : string -> json + string)
    (complete : json -> QuizOptions -> result string)
    (get_document : string -> result json) (now : Z)
    (insert_one : Quiz -> result string)
    (request : Request.QuizGenerationRequest) (r : QuizGenerationResponse) :
  generate_quiz default_ai_model json_loads complete get_document now insert_one request
    = Ok r ->
  exists content qs,
    resolve_content get_document request = Ok content
    /\ generate_quiz_questions json_loads complete content (Request.options request) = Ok qs
    /\ (1 <= List.length qs <= 20)%nat
    /\ insert_one (mkQuiz (Request.book_id request) qs now default_ai_model
                    (Some "Quiz generated from book content") (Request.metadata request))
       = Ok (quiz_id r)
    /\ questions_count r = List.length qs
    /\ status r = "success"
    /\ ai_model_used r = default_ai_model.
Proof.
  unfold generate_quiz. intros H.
  destruct (resolve_content get_document request) as [content|] eqn:Ec;
    cbn [bind] in H; [|discriminate].
  destruct (generate_quiz_questions json_loads complete content (Request.options request))
    as [qs|] eqn:Eq; cbn [bind] in H; [|discriminate].
  unfold Quiz_new in H.
  destruct (Nat.leb_spec 1 (List.length qs)), (Nat.leb_spec (List.length qs) 20);
    cbn [andb bind] in H; try discriminate.
  destruct (insert_one _) as [id|] eqn:Ei; cbn [bind] in H; [|discriminate].
  injection H as <-. exists content, qs. simpl.
  repeat split; try reflexivity; try assumption.
Qed.

Lemma generate_quiz_success_summary_witness :
  generate_quiz "model" (loads_constant (JObj [("questions", JArr [sample_question_json])]))
    (complete_constant "{}") (fun _ => Ok JNull) 0 (fun _ => Ok "quiz-1")
    (Request.mkRequest sample_content "book-123" (Some []) (Some default_options))
  = Ok (mkQuizGenerationResponse "quiz-1" 1 "success" "model")
  /\ exists content qs,
    resolve_content (fun _ => Ok JNull)
      (Request.mkRequest sample_content "book-123" (Some []) (Some default_options))
      = Ok content
    /\ generate_quiz_questions
         (loads_constant (JObj [("questions", JArr [sample_question_json])]))
         (complete_constant "{}") content (Some default_options) = Ok qs
    /\ (1 <= List.length qs <= 20)%nat
    /\ (fun _ : Quiz => Ok "quiz-1")
         (mkQuiz "book-123" qs 0 "model" (Some "Quiz generated from book content")
            (Some [])) = Ok "quiz-1"
    /\ 1%nat = List.length qs
    /\ "success" = "success"
    /\ "model" = "model".
Proof.
  split; [reflexivity|].
  exact (generate_quiz_success_summary "model"
           (loads_constant (JObj [("questions", JArr [sample_question_json])]))
           (complete_constant "{}") (fun _ => Ok JNull) 0 (fun _ => Ok "quiz-1")
           (Request.mkRequest sample_content "book-123" (Some []) (Some default_options))
           (mkQuizGenerationResponse "quiz-1" 1 "success" "model") eq_refl).
Defined.

(** ** Quiz ids and the store gateway *)

Lemma is_hex_char_lower (c : ascii) :
  is_hex_char c = is_lower_hex_char (ascii_lower c).
Proof. destruct c as [[] [] [] [] [] [] [] []]; reflexivity. Qed.

Lemma lower_hex_char_fixed (c : ascii) :
  is_lower_hex_char c = true -> ascii_lower c = c.
Proof. destruct c as [[] [] [] [] [] [] [] []]; cbv; congruence. Qed.

Lemma lower_hex_char_hex (c : ascii) :
  is_lower_hex_char c = true -> is_hex_char c = true.
Proof. destruct c as [[] [] [] [] [] [] [] []]; cbv; congruence. Qed.

Lemma hex_char_not_space (c : ascii) :
  is_hex_char c = true -> is_py_space c = false.
Proof. destruct c as [[] [] [] [] [] [] [] []]; cbv; congruence. Qed.

Lemma ascii_lower_classes (c : ascii) :
  is_py_space (ascii_lower c) = is_py_space c
  /\ is_hex_char (ascii_lower c) = is_hex_char c
  /\ ascii_lower (ascii_lower c) = ascii_lower c.
Proof. destruct c as [[] [] [] [] [] [] [] []]; repeat split. Qed.

Lemma py_lower_length (s : string) : String.length (py_lower s) = String.length s.
Proof. induction s as [|c s IH]; simpl; [reflexivity | rewrite IH; reflexivity]. Qed.

Lemma py_lower_list (s : string) :
  list_ascii_of_string (py_lower s) = map ascii_lower (list_ascii_of_string s).
Proof. induction s as [|c s IH]; simpl; [reflexivity | rewrite IH; reflexivity]. Qed.

Lemma py_lower_lower_hex (s : string) :
  forallb is_lower_hex_char (list_ascii_of_string s) = true -> py_lower s = s.
Proof.
  induction s as [|c s IH]; simpl; [reflexivity|].
  intros H. apply andb_true_iff in H as [Hc Hs].
  rewrite (lower_hex_char_fixed c Hc), (IH Hs). reflexivity.
Qed.

Lemma list_ascii_of_string_length (s : string) :
  List.length (list_ascii_of_string s) = String.length s.
Proof. induction s as [|c s IH]; simpl; [reflexivity | rewrite IH; reflexivity]. Qed.

(** [fromhex] does not see letter case. *)
Lemma fromhex_hexlify_lower (l : list ascii) :
  fromhex_hexlify (map ascii_lower l) = fromhex_hexlify l.
Proof.
  assert (Hn : forall n l, (List.length l <= n)%nat ->
             fromhex_hexlify (map ascii_lower l) = fromhex_hexlify l).
  { induction n as [|n IH]; intros l' Hl.
    - destruct l'; [reflexivity | simpl in Hl; lia].
    - destruct l' as [|c r]; [reflexivity|]. simpl in Hl.
      destruct (ascii_lower_classes c) as (Hs & Hh & Hl2).
      cbn [map fromhex_hexlify]. rewrite Hs.
      destruct (is_py_space c); [apply IH; lia|].
      destruct r as [|d r']; [reflexivity|]. cbn [map].
      destruct (ascii_lower_classes d) as (_ & Hhd & Hld).
      rewrite Hh, Hhd, Hl2, Hld.
      rewrite (IH r') by (simpl in Hl; lia). reflexivity. }
  apply (Hn (List.length l)). lia.
Qed.

(** What [fromhex] gives back is lowercase hex, never longer than its
    input. *)
Lemma fromhex_hexlify_output (l h : list ascii) :
  fromhex_hexlify l = Some h ->
  forallb is_lower_hex_char h = true /\ (List.length h <= List.length l)%nat.
Proof.
  assert (Hn : forall n l h, (List.length l <= n)%nat -> fromhex_hexlify l = Some h ->
             forallb is_lower_hex_char h = true /\ (List.length h <= List.length l)%nat).
  { induction n as [|n IH]; intros l' h' Hl Hf.
    - destruct l'; [|simpl in Hl; lia]. simpl in Hf. injection Hf as <-.
      split; reflexivity.
    - destruct l' as [|c r].
      + simpl in Hf. injection Hf as <-. split; reflexivity.
      + simpl in Hl. cbn [fromhex_hexlify] in Hf.
        destruct (is_py_space c).
        * destruct (IH r h' ltac:(lia) Hf) as [H1 H2]. split; [exact H1 | simpl; lia].
        * destruct r as [|d r']; [discriminate|].
          destruct (is_hex_char c) eqn:Hc; [|discriminate].
          destruct (is_hex_char d) eqn:Hd; [|discriminate]. cbn [andb] in Hf.
          destruct (fromhex_hexlify r') as [h0|] eqn:Er; [|discriminate].
          cbn [option_map] in Hf. injection Hf as <-.
          destruct (IH r' h0 ltac:(simpl in Hl; lia) Er) as [H1 H2].
          cbn [forallb List.length]. rewrite <- is_hex_char_lower, <- is_hex_char_lower.
          rewrite Hc, Hd, H1. split; [reflexivity | simpl; lia]. }
  intros Hf. exact (Hn (List.length l) l h (le_n _) Hf).
Qed.

(** An even number of hex digits with no whitespace decodes to the same
    digits in lowercase. *)
Lemma fromhex_hexlify_digits (n : nat) (l : list ascii) :
  List.length l = (2 * n)%nat -> forallb is_hex_char l = true ->
  fromhex_hexlify l = Some (map ascii_lower l).
Proof.
  revert l. induction n as [|n IH]; intros l Hl Hh.
  - destruct l; [reflexivity | simpl in Hl; lia].
  - destruct l as [|c [|d r]]; simpl in Hl; try lia.
    cbn [forallb] in Hh. apply andb_true_iff in Hh as [Hc Hh].
    apply andb_true_iff in Hh as [Hd Hr].
    cbn [fromhex_hexlify]. rewrite (hex_char_not_space c Hc), Hc, Hd.
    rewrite (IH r ltac:(lia) Hr). reflexivity.
Qed.

Lemma object_id_ok (s oid : string) :
  object_id s = Ok oid
  <-> String.length s = 24%nat
      /\ exists h, fromhex_hexlify (list_ascii_of_string s) = Some h
                   /\ oid = string_of_list_ascii h.
Proof.
  unfold object_id. destruct (Nat.eqb_spec (String.length s) 24) as [Hl|Hl].
  - destruct (fromhex_hexlify (list_ascii_of_string s)) as [h|].
    + split.
      * intros H. injection H as <-. split; [exact Hl|]. exists h. split; reflexivity.
      * intros [_ (h' & Hh & ->)]. injection Hh as <-. reflexivity.
    + split; [discriminate|]. intros [_ (h' & Hh & _)]. discriminate.
  - split; [discriminate|]. intros [H _]. contradiction.
Qed.

(** X12: ids that differ only in letter case name the same quiz; an
    accepted id names a string of at most 24 lowercase hex digits (fewer
    when [bytes.fromhex] skipped whitespace); 24 hexadecimal digits are
    accepted and name their lowercase form, so the canonical form
    [str(oid)] is accepted as itself. *)
Theorem object_id_case_insensitive :
  (forall s1 s2 oid, py_lower s1 = py_lower s2 ->
     object_id s1 = Ok oid -> object_id s2 = Ok oid)
  /\ (forall s oid, object_id s = Ok oid ->
        forallb is_lower_hex_char (list_ascii_of_string oid) = true
        /\ (String.length oid <= 24)%nat)
  /\ (forall s, String.length s = 24%nat ->
        forallb is_hex_char (list_ascii_of_string s) = true ->
        object_id s = Ok (py_lower s))
  /\ (forall s, is_object_id_string s = true -> object_id s = Ok s).
Proof.
  assert (Hkey : forall s, String.length s = String.length (py_lower s)
                 /\ fromhex_hexlify (list_ascii_of_string s)
                    = fromhex_hexlify (list_ascii_of_string (py_lower s))).
  { intros s. rewrite py_lower_length, py_lower_list, fromhex_hexlify_lower.
    split; reflexivity. }
  assert (H3 : forall s, String.length s = 24%nat ->
               forallb is_hex_char (list_ascii_of_string s) = true ->
               object_id s = Ok (py_lower s)).
  { intros s Hl Hh. apply object_id_ok. split; [exact Hl|].
    exists (map ascii_lower (list_ascii_of_string s)). split.
    - apply (fromhex_hexlify_digits 12); [rewrite list_ascii_of_string_length; lia | exact Hh].
    - rewrite <- py_lower_list. symmetry. apply string_of_list_ascii_of_string. }
  split; [|split; [|split]].
  - intros s1 s2 oid He H1. apply object_id_ok in H1 as [Hl (h & Hf & ->)].
    apply object_id_ok.
    destruct (Hkey s1) as [K1 F1], (Hkey s2) as [K2 F2].
    split; [rewrite K2, <- He, <- K1; exact Hl|].
    exists h. split; [rewrite F2, <- He, <- F1; exact Hf | reflexivity].
  - intros s oid H. apply object_id_ok in H as [Hl (h & Hf & ->)].
    destruct (fromhex_hexlify_output _ _ Hf) as [H1 H2].
    rewrite list_ascii_of_string_of_list_ascii. split; [exact H1|].
    rewrite list_ascii_of_string_length in H2. rewrite <- Hl.
    rewrite <- (list_ascii_of_string_of_list_ascii h) in H2.
    rewrite list_ascii_of_string_length in H2. exact H2.
  - exact H3.
  - intros s Hs. unfold is_object_id_string in Hs.
    apply andb_true_iff in Hs as [Hl Hs]. apply Nat.eqb_eq in Hl.
    rewrite <- (py_lower_lower_hex s Hs) at 2. apply H3; [exact Hl|].
    clear Hl. induction (list_ascii_of_string s) as [|c r IH]; [reflexivity|].
    cbn [forallb] in Hs |- *. apply andb_true_iff in Hs as [Hc Hr].
    rewrite (lower_hex_char_hex c Hc). exact (IH Hr).
Qed.


(** X14: DELETE /quizzes/{quiz_id} answers 200 or 404 and never 500: 200
    exactly when the id is a valid ObjectId and the store reports at least
    one deleted document, 404 otherwise, store failures included. *)
Theorem delete_quiz_status (delete_one : string -> result Z) (quiz_id : string) :
  (status_code (http_delete_quiz delete_one quiz_id) = 200%Z
   \/ status_code (http_delete_quiz delete_one quiz_id) = 404%Z)
  /\ (status_code (http_delete_quiz delete_one quiz_id) = 200%Z
      <-> exists oid n, object_id quiz_id = Ok oid /\ delete_one oid = Ok n /\ (0 < n)%Z).
Proof.
  unfold http_delete_quiz, db_delete_quiz.
  destruct (object_id quiz_id) as [oid|] eqn:Eo; cbn [bind].
  - destruct (delete_one oid) as [n|] eqn:Ed; cbn [bind status_code].
    + destruct (Z.ltb_spec 0 n); cbn [status_code].
      * split; [left; reflexivity|]. split; [eauto | reflexivity].
      * split; [right; reflexivity|]. split; [discriminate|].
        intros (oid' & n' & Ho & Hd & Hn). injection Ho as <-.
        rewrite Ed in Hd. injection Hd as <-. lia.
    + split; [right; reflexivity|]. split; [discriminate|].
      intros (oid' & n' & Ho & Hd & Hn). injection Ho as <-. congruence.
  - cbn [status_code]. split; [right; reflexivity|]. split; [discriminate|].
    intros (oid' & n' & Ho & _). discriminate.
Qed.

Lemma find_first_key (pre post : list stored_doc) (oid : string)
    (fields : list (string * json)) :
  ~ In oid (map fst pre) ->
  find (fun d => String.eqb (fst d) oid) (pre ++ (oid, fields) :: post)
  = Some (oid, fields).
Proof.
  induction pre as [|[k v] pre IH]; simpl; intros Hn.
  - rewrite String.eqb_refl. reflexivity.
  - destruct (String.eqb_spec k oid) as [->|]; [exfalso; apply Hn; left; reflexivity|].
    apply IH. intros Hi. apply Hn. right. exact Hi.
Qed.

Lemma existsb_key_iff (coll : list stored_doc) (oid : string) :
  existsb (fun d => String.eqb (fst d) oid) coll = true <-> In oid (map fst coll).
Proof.
  rewrite existsb_exists. split.
  - intros ([k v] & Hi & He). apply String.eqb_eq in He. simpl in He. subst k.
    apply in_map_iff. exists (oid, v). split; [reflexivity | exact Hi].
  - intros Hi. apply in_map_iff in Hi as ([k v] & Hk & Hi). simpl in Hk. subst k.
    exists (oid, v). split; [exact Hi | apply String.eqb_refl].
Qed.


(** X15: Over a collection of stored documents, a quiz stored under [oid] is
    read back, with ["_id"] set to [oid], through any spelling of its id
    that [ObjectId] maps to [oid] (upper or lower case): GET answers 200
    with it when it serialises as a QuizDocument, and DELETE answers 200. *)
Theorem stored_quiz_read_and_deleted_by_id (pre post : list stored_doc) (oid : string)
    (fields : list (string * json)) (valid_quiz_document : list (string * json) -> bool)
    (quiz_id : string) :
  ~ In oid (map fst pre) ->
  object_id quiz_id = Ok oid ->
  db_get_quiz (collection_find_one (pre ++ (oid, fields) :: post)) quiz_id
    = Some (("_id", JStr oid) :: fields)
  /\ (valid_quiz_document (("_id", JStr oid) :: fields) = true ->
      http_get_quiz (collection_find_one (pre ++ (oid, fields) :: post))
        valid_quiz_document quiz_id = mkResp 200 (JObj (("_id", JStr oid) :: fields)))
  /\ status_code (http_delete_quiz (collection_delete_one (pre ++ (oid, fields) :: post))
                    quiz_id) = 200%Z.
Proof.
  intros Hn Ho.
  assert (Hg : db_get_quiz (collection_find_one (pre ++ (oid, fields) :: post)) quiz_id
               = Some (("_id", JStr oid) :: fields)).
  { unfold db_get_quiz, collection_find_one. rewrite Ho. cbn [bind].
    rewrite (find_first_key pre post oid fields Hn). reflexivity. }
  split; [exact Hg|]. split.
  - intros Hv. unfold http_get_quiz, service_get_quiz. rewrite Hg. cbn [py_truthy].
    rewrite Hv. reflexivity.
  - unfold http_delete_quiz, db_delete_quiz, collection_delete_one. rewrite Ho.
    cbn [bind].
    assert (He : existsb (fun d => String.eqb (fst d) oid) (pre ++ (oid, fields) :: post)
                 = true).
    { apply existsb_key_iff. rewrite map_app. apply in_or_app. right. left. reflexivity. }
    rewrite He. reflexivity.
Qed.

Lemma stored_quiz_read_and_deleted_by_id_witness :
  ~ In "507f1f77bcf86cd799439011" (map fst (@nil stored_doc))
  /\ object_id "507F1F77BCF86CD799439011" = Ok "507f1f77bcf86cd799439011"
  /\ db_get_quiz (collection_find_one
                    ([] ++ ("507f1f77bcf86cd799439011", [("book_id", JStr "book-123")])
                        :: [])) "507F1F77BCF86CD799439011"
     = Some (("_id", JStr "507f1f77bcf86cd799439011") :: [("book_id", JStr "book-123")])
  /\ ((fun _ => true) (("_id", JStr "507f1f77bcf86cd799439011")
                       :: [("book_id", JStr "book-123")]) = true ->
      http_get_quiz (collection_find_one
                       ([] ++ ("507f1f77bcf86cd799439011", [("book_id", JStr "book-123")])
                           :: [])) (fun _ => true) "507F1F77BCF86CD799439011"
      = mkResp 200 (JObj (("_id", JStr "507f1f77bcf86cd799439011")
                          :: [("book_id", JStr "book-123")])))
  /\ status_code (http_delete_quiz
                    (collection_delete_one
                       ([] ++ ("507f1f77bcf86cd799439011", [("book_id", JStr "book-123")])
                           :: [])) "507F1F77BCF86CD799439011") = 200%Z.
Proof.
  split; [intros []|]. split; [reflexivity|].
  exact (stored_quiz_read_and_deleted_by_id [] [] "507f1f77bcf86cd799439011"
           [("book_id", JStr "book-123")] (fun _ => true) "507F1F77BCF86CD799439011"
           (fun H => H) eq_refl).
Defined.



(** ** Listing quizzes *)

(** With the bounds the endpoint enforces, the gateway returns the window
    [offset, offset + limit) of the matching documents, with their ids as
    strings. *)
Lemma db_get_quizzes_window (docs : list stored_doc) (book_id : option string)
    (limit offset : Z) :
  (1 <= limit)%Z -> (0 <= offset)%Z ->
  db_get_quizzes (Ok docs) book_id limit offset
  = Ok (map with_string_id
          (firstn (Z.to_nat limit)
             (skipn (Z.to_nat offset)
                (match book_id with
                 | Some b => if String.eqb b "" then docs
                             else filter (fun d => book_id_matches b (snd d)) docs
                 | None => docs
                 end)))).
Proof.
  intros Hl Ho. unfold db_get_quizzes, cursor_skip, cursor_limit. cbn [bind].
  destruct (Z.ltb_spec offset 0); [lia|]. cbn [bind].
  destruct (Z.eqb_spec limit 0); [lia|].
  rewrite Z.abs_eq by lia. reflexivity.
Qed.

Lemma in_firstn_in {A} (n : nat) (l : list A) (x : A) : In x (firstn n l) -> In x l.
Proof.
  intros H. rewrite <- (firstn_skipn n l). apply in_or_app. left. exact H.
Qed.

Lemma in_skipn_in {A} (n : nat) (l : list A) (x : A) : In x (skipn n l) -> In x l.
Proof.
  intros H. rewrite <- (firstn_skipn n l). apply in_or_app. right. exact H.
Qed.

Lemma firstn_add_split {A} (a b : nat) (l : list A) :
  firstn (a + b) l = (firstn a l ++ firstn b (skipn a l))%list.
Proof.
  revert l. induction a as [|a IH]; intros l; [reflexivity|].
  destruct l as [|x l]; simpl.
  - destruct b; reflexivity.
  - rewrite IH. reflexivity.
Qed.

Lemma skipn_add {A} (a b : nat) (l : list A) : skipn (a + b) l = skipn b (skipn a l).
Proof.
  revert l. induction a as [|a IH]; intros l; [reflexivity|].
  destruct l as [|x l]; simpl; [destruct b; reflexivity | apply IH].
Qed.

(** X17: A page of GET /quizzes from a readable store holds at most [limit]
    quizzes; each is a stored document with its id added as a string, and
    when a non-empty book_id is given, each matches it. *)
Theorem list_page_bounded_and_filtered (docs : list stored_doc) (book_id : option string)
    (limit offset : Z) (qs : list (list (string * json))) :
  (1 <= limit)%Z ->
  db_get_quizzes (Ok docs) book_id limit offset = Ok qs ->
  (List.length qs <= Z.to_nat limit)%nat
  /\ (forall q, In q qs ->
        exists d, In d docs /\ q = with_string_id d
                  /\ forall b, book_id = Some b -> b <> "" -> book_id_matches b (snd d) = true).
Proof.
  intros Hl Hq.
  assert (Ho : (0 <= offset)%Z).
  { unfold db_get_quizzes, cursor_skip in Hq. cbn [bind] in Hq.
    destruct (Z.ltb_spec offset 0); [discriminate | lia]. }
  rewrite (db_get_quizzes_window docs book_id limit offset Hl Ho) in Hq.
  injection Hq as <-. split.
  - rewrite length_map. apply firstn_le_length.
  - intros q Hi. apply in_map_iff in Hi as (d & <- & Hd).
    apply in_firstn_in, in_skipn_in in Hd.
    exists d. destruct book_id as [b|].
    + destruct (String.eqb_spec b "") as [->|Hb].
      * split; [exact Hd|]. split; [reflexivity|].
        intros b' Hb' Hne. injection Hb' as <-. contradiction.
      * apply filter_In in Hd as [Hd Hm].
        split; [exact Hd|]. split; [reflexivity|].
        intros b' Hb' _. injection Hb' as <-. exact Hm.
    + split; [exact Hd|]. split; [reflexivity|]. discriminate.
Qed.

Lemma list_page_bounded_and_filtered_witness :
  (1 <= 1)%Z
  /\ db_get_quizzes (Ok [("a1", [("book_id", JStr "b1")]); ("a2", [("book_id", JStr "b2")]);
                         ("a3", [("book_id", JStr "b1")])]) (Some "b1") 1 1
     = Ok [[("_id", JStr "a3"); ("book_id", JStr "b1")]]
  /\ (List.length [[("_id", JStr "a3"); ("book_id", JStr "b1")]] <= Z.to_nat 1)%nat
  /\ (forall q, In q [[("_id", JStr "a3"); ("book_id", JStr "b1")]] ->
        exists d, In d [("a1", [("book_id", JStr "b1")]); ("a2", [("book_id", JStr "b2")]);
                        ("a3", [("book_id", JStr "b1")])]
                  /\ q = with_string_id d
                  /\ forall b, Some "b1" = Some b -> b <> "" -> book_id_matches b (snd d) = true).
Proof.
  split; [lia|]. split; [reflexivity|].
  exact (list_page_bounded_and_filtered
           [("a1", [("book_id", JStr "b1")]); ("a2", [("book_id", JStr "b2")]);
            ("a3", [("book_id", JStr "b1")])] (Some "b1") 1 1
           [[("_id", JStr "a3"); ("book_id", JStr "b1")]] ltac:(lia) eq_refl).
Defined.

(** X18: Without a book_id, or with an empty one, nothing is filtered: a page
    is the window [offset, offset + limit) of the stored documents in
    cursor order. *)
Theorem unfiltered_page_is_window (docs : list stored_doc) (book_id : option string)
    (limit offset : Z) :
  (book_id = None \/ book_id = Some "") ->
  (1 <= limit)%Z -> (0 <= offset)%Z ->
  db_get_quizzes (Ok docs) book_id limit offset
  = Ok (map with_string_id (firstn (Z.to_nat limit) (skipn (Z.to_nat offset) docs))).
Proof.
  intros Hb Hl Ho. rewrite (db_get_quizzes_window docs book_id limit offset Hl Ho).
  destruct Hb as [->| ->]; reflexivity.
Qed.

Lemma unfiltered_page_is_window_witness :
  (Some "" = None \/ Some "" = Some "") /\ (1 <= 2)%Z /\ (0 <= 1)%Z
  /\ db_get_quizzes (Ok [("a1", [("book_id", JStr "b1")]); ("a2", [("book_id", JStr "b2")]);
                         ("a3", [("book_id", JStr "b1")])]) (Some "") 2 1
     = Ok (map with_string_id
             (firstn (Z.to_nat 2)
                (skipn (Z.to_nat 1)
                   [("a1", [("book_id", JStr "b1")]); ("a2", [("book_id", JStr "b2")]);
                    ("a3", [("book_id", JStr "b1")])]))).
Proof.
  split; [right; reflexivity|]. split; [lia|]. split; [lia|].
  exact (unfiltered_page_is_window
           [("a1", [("book_id", JStr "b1")]); ("a2", [("book_id", JStr "b2")]);
            ("a3", [("book_id", JStr "b1")])] (Some "") 2 1
           (or_intror eq_refl) ltac:(lia) ltac:(lia)).
Defined.

(** X19: Pages compose: the page of [l1] quizzes at [offset] followed by the
    page of [l2] quizzes at [offset + l1] is the page of [l1 + l2] quizzes
    at [offset], for the same store contents and filter. *)
Theorem list_pages_compose (docs : list stored_doc) (book_id : option string)
    (l1 l2 offset : Z) (p1 p2 : list (list (string * json))) :
  (1 <= l1)%Z -> (1 <= l2)%Z -> (0 <= offset)%Z ->
  db_get_quizzes (Ok docs) book_id l1 offset = Ok p1 ->
  db_get_quizzes (Ok docs) book_id l2 (offset + l1) = Ok p2 ->
  db_get_quizzes (Ok docs) book_id (l1 + l2) offset = Ok (p1 ++ p2)%list.
Proof.
  intros H1 H2 Ho E1 E2.
  rewrite (db_get_quizzes_window docs book_id l1 offset H1 Ho) in E1.
  rewrite (db_get_quizzes_window docs book_id l2 (offset + l1) H2 ltac:(lia)) in E2.
  rewrite (db_get_quizzes_window docs book_id (l1 + l2) offset ltac:(lia) Ho).
  injection E1 as <-. injection E2 as <-.
  rewrite Z2Nat.inj_add by lia. rewrite Z2Nat.inj_add by lia.
  rewrite firstn_add_split, skipn_add, map_app. reflexivity.
Qed.

Lemma list_pages_compose_witness :
  (1 <= 1)%Z /\ (1 <= 2)%Z /\ (0 <= 0)%Z
  /\ db_get_quizzes (Ok [("a1", []); ("a2", []); ("a3", [])]) None 1 0
     = Ok [[("_id", JStr "a1")]]
  /\ db_get_quizzes (Ok [("a1", []); ("a2", []); ("a3", [])]) None 2 (0 + 1)
     = Ok [[("_id", JStr "a2")]; [("_id", JStr "a3")]]
  /\ db_get_quizzes (Ok [("a1", []); ("a2", []); ("a3", [])]) None (1 + 2) 0
     = Ok ([[("_id", JStr "a1")]] ++ [[("_id", JStr "a2")]; [("_id", JStr "a3")]])%list.
Proof.
  split; [lia|]. split; [lia|]. split; [lia|]. split; [reflexivity|]. split; [reflexivity|].
  exact (list_pages_compose [("a1", []); ("a2", []); ("a3", [])] None 1 2 0
           [[("_id", JStr "a1")]] [[("_id", JStr "a2")]; [("_id", JStr "a3")]]
           ltac:(lia) ltac:(lia) ltac:(lia) eq_refl eq_refl).
Defined.

(** X20: GET /quizzes answers 422 when [limit] is outside [1, 100] or [offset]
    is negative, whatever the store holds; within the bounds it answers 200
    with at most [limit] quizzes, their count, and [limit] and [offset]
    echoed when the store is readable, and 500 with the store's error
    otherwise. *)
Theorem list_quizzes_statuses :
  (forall find_all book_id limit offset,
     (limit < 1 \/ 100 < limit \/ offset < 0)%Z ->
     status_code (http_list_quizzes find_all book_id limit offset) = 422%Z)
  /\ (forall docs book_id limit offset,
        (1 <= limit <= 100)%Z -> (0 <= offset)%Z ->
        exists qs, (List.length qs <= Z.to_nat limit)%nat
          /\ http_list_quizzes (Ok docs) book_id limit offset
             = mkResp 200 (JObj [("quizzes", JArr (map JObj qs));
                                 ("count", JInt (Z.of_nat (List.length qs)));
                                 ("limit", JInt limit); ("offset", JInt offset)]))
  /\ (forall e book_id limit offset,
        (1 <= limit <= 100)%Z -> (0 <= offset)%Z ->
        http_list_quizzes (Err e) book_id limit offset = http_error 500 e).
Proof.
  split; [|split].
  - intros find_all book_id limit offset Hr. unfold http_list_quizzes.
    assert (Hb : ((1 <=? limit) && (limit <=? 100) && (0 <=? offset))%Z = false).
    { destruct (Z.leb_spec 1 limit), (Z.leb_spec limit 100), (Z.leb_spec 0 offset);
        simpl; try reflexivity; lia. }
    rewrite Hb. reflexivity.
  - intros docs book_id limit offset Hl Ho. unfold http_list_quizzes.
    assert (Hb : ((1 <=? limit) && (limit <=? 100) && (0 <=? offset))%Z = true).
    { apply andb_true_iff. split; [apply andb_true_iff; split|]; apply Z.leb_le; lia. }
    rewrite Hb. cbn [negb]. unfold service_list_quizzes.
    rewrite (db_get_quizzes_window docs book_id limit offset ltac:(lia) Ho). cbn [bind].
    eexists. split; [|reflexivity].
    rewrite length_map. apply firstn_le_length.
  - intros e book_id limit offset Hl Ho. unfold http_list_quizzes.
    assert (Hb : ((1 <=? limit) && (limit <=? 100) && (0 <=? offset))%Z = true).
    { apply andb_true_iff. split; [apply andb_true_iff; split|]; apply Z.leb_le; lia. }
    rewrite Hb. reflexivity.
Qed.

(** ** Resolving the content *)

(** X21: Resolving the content of a request, fetching it from the document
    service when the request's own is empty, either yields a truthy value
    of length at least 100, or fails with a ValueError (service failure,
    missing or empty content, too short) or a TypeError (fetched content
    with no length, such as a number). *)
Theorem resolve_content_outcomes (get_document : string -> result json)
    (request : Request.QuizGenerationRequest) :
  (forall c, resolve_content get_document request = Ok c ->
     py_truthy c = true /\ exists n, py_len c = Ok n /\ (100 <= n)%nat)
  /\ (forall e, resolve_content get_document request = Err e ->
        is_value_error e = true \/ exists m, e = TypeError m).
Proof.
  assert (Hf : forall c, (if py_truthy (JStr (Request.content request)) then
                            Ok (JStr (Request.content request))
                          else fetch_document_content get_document (Request.book_id request))
                         = Ok c -> py_truthy c = true).
  { intros c. destruct (py_truthy (JStr (Request.content request))) eqn:Et.
    - intros Hr. injection Hr as <-. exact Et.
    - unfold fetch_document_content.
      destruct (get_document (Request.book_id request)) as [d|]; [|discriminate].
      destruct (py_dict_get d "content") as [v|]; [|discriminate].
      destruct (py_truthy v) eqn:Ev; [|discriminate].
      intros Hr. injection Hr as <-. exact Ev. }
  assert (Hg : forall e, (if py_truthy (JStr (Request.content request)) then
                            Ok (JStr (Request.content request))
                          else fetch_document_content get_document (Request.book_id request))
                         = Err e -> is_value_error e = true).
  { intros e. destruct (py_truthy (JStr (Request.content request))); [discriminate|].
    unfold fetch_document_content.
    destruct (get_document (Request.book_id request)) as [d|];
      [|intros Hr; injection Hr as <-; reflexivity].
    destruct (py_dict_get d "content") as [v|];
      [|intros Hr; injection Hr as <-; reflexivity].
    destruct (py_truthy v); [discriminate|].
    intros Hr. injection Hr as <-. reflexivity. }
  unfold resolve_content. split.
  - intros c.
    destruct (if py_truthy (JStr (Request.content request)) then
                Ok (JStr (Request.content request))
              else fetch_document_content get_document (Request.book_id request))
      as [v|] eqn:Ev; cbn [bind]; [|discriminate].
    destruct (py_len v) as [n|] eqn:En; cbn [bind]; [|discriminate].
    destruct (Nat.ltb_spec n 100); [discriminate|].
    intros Hr. injection Hr as <-. split; [exact (Hf v eq_refl)|]. eauto.
  - intros e.
    destruct (if py_truthy (JStr (Request.content request)) then
                Ok (JStr (Request.content request))
              else fetch_document_content get_document (Request.book_id request))
      as [v|] eqn:Ev; cbn [bind].
    + destruct v as [| b | z | s | l | kvs]; cbn [py_len bind];
        try (intros Hr; injection Hr as <-; right; eexists; reflexivity);
        (destruct (Nat.ltb _ 100); [intros Hr; injection Hr as <-; left; reflexivity
                                   | discriminate]).
    + intros Hr. injection Hr as <-. left. exact (Hg e0 eq_refl).
Qed.
